(** * sync-dbx-nxc: the state-diff reconciliation engine

    A shallow embedding of [sync-dbx-nxc.py].  A state is the Python dict
    of the script, kept as an insertion-ordered association list because
    the loops of the script run over [items()] in insertion order.  Calls
    to the two storage clients, to [print] and to [os.remove] are recorded
    in a trace, in the order the script makes them, and are taken to
    succeed; a Python exception raised by the script itself ends the
    computation with [Raise]. *)

From Stdlib Require Import String Ascii List Bool Arith ZArith Lia.
Import ListNotations.
Open Scope string_scope.

(** ** Python string operations used by the script *)

Module Py.

(** [s[n:]] *)
Fixpoint slice_from (n : nat) (s : string) : string :=
  match n, s with
  | O, _ => s
  | S _, EmptyString => EmptyString
  | S n', String _ s' => slice_from n' s'
  end.

(** [s.startswith(p)] *)
Definition startswith (s p : string) : bool := String.prefix p s.

(** [s.endswith(c)] for a one-character suffix [c]. *)
Fixpoint endswith_char (s : string) (c : ascii) : bool :=
  match s with
  | EmptyString => false
  | String a EmptyString => Ascii.eqb a c
  | String _ s' => endswith_char s' c
  end.

(** [s.rstrip(c)] for a one-character set [c]. *)
Fixpoint rstrip_char (s : string) (c : ascii) : string :=
  match s with
  | EmptyString => EmptyString
  | String a s' =>
      match rstrip_char s' c with
      | EmptyString => if Ascii.eqb a c then EmptyString else String a EmptyString
      | r => String a r
      end
  end.

(** [s.rfind(c)]: the highest index of [c] in [s], or [-1]. *)
Fixpoint rfind_from (s : string) (c : ascii) (i acc : Z) : Z :=
  match s with
  | EmptyString => acc
  | String a s' => rfind_from s' c (i + 1)%Z (if Ascii.eqb a c then i else acc)
  end.

Definition rfind (s : string) (c : ascii) : Z := rfind_from s c 0%Z (-1)%Z.

(** [s.lower()], on the ASCII letters [A]-[Z]; [str.lower] lowers the other
    cased letters too, which no listing used below contains. *)
Definition lower_char (a : ascii) : ascii :=
  let n := nat_of_ascii a in
  if ((65 <=? n)%nat && (n <=? 90)%nat)%bool then ascii_of_nat (n + 32) else a.

Fixpoint lower (s : string) : string :=
  match s with
  | EmptyString => EmptyString
  | String a s' => String (lower_char a) (lower s')
  end.

(** [str(b)] for a bool. *)
Definition str_bool (b : bool) : string := if b then "True" else "False".

(** ** Dicts, in insertion order *)

Definition dict (V : Type) : Type := list (string * V).

Section Dict.
Context {V : Type}.

(** [d.get(k)]: [None] when [k not in d]. *)
Fixpoint get (d : dict V) (k : string) : option V :=
  match d with
  | [] => None
  | (k', v) :: d' => if String.eqb k' k then Some v else get d' k
  end.

(** [k in d] *)
Definition contains (d : dict V) (k : string) : bool :=
  match get d k with Some _ => true | None => false end.

(** [d[k] = v]: the value of a key already there is replaced in place,
    a new key goes to the end. *)
Fixpoint set (d : dict V) (k : string) (v : V) : dict V :=
  match d with
  | [] => [(k, v)]
  | (k', v') :: d' =>
      if String.eqb k' k then (k', v) :: d' else (k', v') :: set d' k v
  end.

Definition keys (d : dict V) : list string := map fst d.
End Dict.

End Py.

(** ** Exceptions, traces and the monad of the script *)

Inductive exn : Type :=
| NameError (name : string)
| KeyError (key : string)
| TypeError (msg : string).

Inductive result (A : Type) : Type :=
| Ok (a : A)
| Raise (e : exn).
Arguments Ok {A} a.
Arguments Raise {A} e.

(** What the script does to the outside world.  The arguments are those the
    script passes to the client library, in its order. *)
Inductive event : Type :=
| Print (line : string)
| DbxFilesCreateFolder (path : string)
| DbxFilesDownloadToFile (filename path : string)
| DbxFilesUpload (local_filepath path : string)
| DbxFilesDelete (path : string)
| NxcCreateFolder (user path : string)
| NxcMovePath (user path destination_path : string)
| NxcDownloadFile (user path : string)
| NxcUploadFile (user local_filepath path : string)
| NxcDeletePath (user path : string)
| OsRemove (filename : string).

Definition M (A : Type) : Type := (list event * result A)%type.

Definition ret {A} (a : A) : M A := ([], Ok a).

Definition bind {A B} (m : M A) (f : A -> M B) : M B :=
  match m with
  | (t, Ok a) => let (t', r) := f a in ((t ++ t')%list, r)
  | (t, Raise e) => (t, Raise e)
  end.

Definition raise {A} (e : exn) : M A := ([], Raise e).
Definition emit (ev : event) : M unit := ([ev], Ok tt).
Definition lift {A} (r : result A) : M A := ([], r).

Definition trace {A} (m : M A) : list event := fst m.
Definition outcome {A} (m : M A) : result A := snd m.

Declare Scope py_scope.
Delimit Scope py_scope with py.
Notation "x <- m ;; k" := (bind m (fun x => k))
  (at level 61, m at next level, right associativity) : py_scope.
Notation "m ;; k" := (bind m (fun _ => k))
  (at level 61, right associativity) : py_scope.
Open Scope py_scope.

(** [if c: body] with no else. *)
Definition when (c : bool) (body : M unit) : M unit := if c then body else ret tt.

(** [for x in xs: body x] *)
Fixpoint for_each {A} (xs : list A) (body : A -> M unit) : M unit :=
  match xs with
  | [] => ret tt
  | x :: xs' => body x ;; for_each xs' body
  end.

(** ** The data model *)

Inductive cloud_type : Type := Dbx | Nxc.

(** [{'existent': .., 'time': ..}] *)
Record cloud_state : Type := mk_cloud_state {
  existent : bool;
  time : option string
}.

(** One entry of a state, as [get_empty_state_entry] lays it out. *)
Record state_entry : Type := mk_state_entry {
  dbx : cloud_state;
  nxc : cloud_state;
  name : string;
  path : string
}.

Definition state : Type := Py.dict state_entry.

(** [entry[cloud_type]] *)
Definition cloud (e : state_entry) (c : cloud_type) : cloud_state :=
  match c with Dbx => dbx e | Nxc => nxc e end.

(** [entry[cloud_type] = s] *)
Definition set_cloud (e : state_entry) (c : cloud_type) (s : cloud_state) : state_entry :=
  match c with
  | Dbx => mk_state_entry s (nxc e) (name e) (path e)
  | Nxc => mk_state_entry (dbx e) s (name e) (path e)
  end.

(** [state[key]], which raises [KeyError] on a missing key. *)
Definition getitem (st : state) (key : string) : result state_entry :=
  match Py.get st key with
  | Some e => Ok e
  | None => Raise (KeyError key)
  end.

(** Comparison of two ['time'] values ([None] or a string) with [!=]. *)
Definition time_neq (a b : option string) : bool :=
  match a, b with
  | None, None => false
  | Some x, Some y => negb (String.eqb x y)
  | _, _ => true
  end.

Definition get_empty_state_entry (_name _path : string) : state_entry :=
  {| dbx := {| existent := false; time := None |};
     nxc := {| existent := false; time := None |};
     name := _name;
     path := _path |}.

(** The globals of the script, as [main] sets them from the command line. *)
Record config : Type := mk_config {
  TIME_NOW_STR : string;
  DROPBOX_SYNC_ROOT : string;
  NEXTCLOUD_USER : string;
  NEXTCLOUD_SYNC_ROOT : string;
  SIMULATE : bool;
  VERBOSE : bool
}.

Definition NEXTCLOUD_SYNC_ROOT_TEXT (cfg : config) : string :=
  "/remote.php/dav/files/" ++ NEXTCLOUD_USER cfg ++ NEXTCLOUD_SYNC_ROOT cfg.

(** ** Snapshot Builder *)

Section SnapshotBuilder.

(** [datetime] with the two calls the script makes on it, and
    [urllib.parse.unquote]: library code, taken as given; [strptime] is
    taken to accept the dates the server sends. *)
Variable datetime : Type.
Variable strftime : datetime -> string -> string.
Variable strptime : string -> string -> datetime.
Variable unquote : string -> string.

Variable cfg : config.

(** The entries of a Dropbox listing; the [isinstance] tests of the script
    tell folders from files and skip anything else. *)
Inductive dbx_metadata : Type :=
| FolderMetadata (name path_lower path_display : string)
| FileMetadata (name path_lower path_display : string) (client_modified : datetime)
| DeletedMetadata (name path_lower path_display : string).

(** A [ListFolderResult]: the entries of one page and, behind [cursor],
    the pages that [files_list_folder_continue] will hand out next. *)
Record ListFolderResult : Type := mk_ListFolderResult {
  entries : list dbx_metadata;
  cursor : list (list dbx_metadata)
}.

Definition has_more (r : ListFolderResult) : bool :=
  match cursor r with [] => false | _ :: _ => true end.

(** The Dropbox handle, reduced to what the script asks of it: the answer
    of [files_list_folder(DROPBOX_SYNC_ROOT, recursive=True, ..)]. *)
Record dropbox : Type := mk_dropbox {
  files_list_folder : ListFolderResult
}.

(** [_state[key][c] = s] *)
Definition setitem_cloud (st : state) (key : string) (c : cloud_type) (s : cloud_state) : state :=
  match Py.get st key with
  | Some e => Py.set st key (set_cloud e c s)
  | None => st
  end.

(** [if not key in _state: _state[key] = get_empty_state_entry(n, p)] *)
Definition setdefault_empty (st : state) (key n p : string) : state :=
  if Py.contains st key then st else Py.set st key (get_empty_state_entry n p).

(** The body of [for entry in list_folder_result.entries] (lines 164-179). *)
Definition fill_entry_dbx (st : state) (entry : dbx_metadata) : state :=
  let root := String.length (DROPBOX_SYNC_ROOT cfg) in
  match entry with
  | FolderMetadata n path_lower path_display =>
      let key := Py.slice_from root path_lower in
      let key := key ++ "/" in
      let st := setdefault_empty st key n (Py.slice_from root (path_display ++ "/")) in
      setitem_cloud st key Dbx {| existent := true; time := Some (TIME_NOW_STR cfg) |}
  | FileMetadata n path_lower path_display client_modified =>
      let key := Py.slice_from root path_lower in
      let st := setdefault_empty st key n (Py.slice_from root path_display) in
      setitem_cloud st key Dbx
        {| existent := true; time := Some (strftime client_modified "%Y%m%d%H%M%S") |}
  | DeletedMetadata _ _ _ => st
  end.

(** [while list_folder_result.has_more: ..] (lines 161-179): each turn first
    replaces [list_folder_result] by the next page and then reads the
    entries of that page. *)
Fixpoint fill_state_dbx_while (pending : list (list dbx_metadata)) (st : state) : state :=
  match pending with
  | [] => st
  | page :: pending' => fill_state_dbx_while pending' (fold_left fill_entry_dbx page st)
  end.

Definition fill_state_dbx (_dbx : dropbox) (_state : state) : state :=
  let list_folder_result := files_list_folder _dbx in
  fill_state_dbx_while (cursor list_folder_result) _state.

(** One item of a NextCloud listing and the response that carries them. *)
Record nxc_item : Type := mk_nxc_item {
  href : string;
  last_modified : string
}.

Record nextcloud : Type := mk_nextcloud {
  is_ok : bool;
  data : list nxc_item
}.

(** The body of [for entry in list_folder_result.data] (lines 188-201). *)
Definition fill_entry_nxc (st : state) (entry : nxc_item) : state :=
  let path_display :=
    Py.slice_from (String.length (NEXTCLOUD_SYNC_ROOT_TEXT cfg)) (unquote (href entry)) in
  let n := Py.rstrip_char path_display "/" in
  let n := Py.slice_from (Z.to_nat (Py.rfind n "/" + 1)) n in
  let key := Py.lower path_display in
  if key =? "" then st
  else
    let st := setdefault_empty st key n path_display in
    setitem_cloud st key Nxc
      {| existent := true;
         time := Some (strftime (strptime (last_modified entry) "%a, %d %b %Y %H:%M:%S %Z")
                                "%Y%m%d%H%M%S") |}.

Definition fill_state_nxc (_nxc : nextcloud) (_state : state) : state :=
  let list_folder_result := _nxc in
  if is_ok list_folder_result
  then fold_left fill_entry_nxc (data list_folder_result) _state
  else _state.

Definition get_state (_dbx : dropbox) (_nxc : nextcloud) : state :=
  let st := [] in
  let st := fill_state_dbx _dbx st in
  let st := fill_state_nxc _nxc st in
  st.

End SnapshotBuilder.

Arguments FolderMetadata {datetime}.
Arguments FileMetadata {datetime}.
Arguments DeletedMetadata {datetime}.
Arguments mk_ListFolderResult {datetime}.
Arguments entries {datetime}.
Arguments cursor {datetime}.
Arguments has_more {datetime}.
Arguments mk_dropbox {datetime}.
Arguments files_list_folder {datetime}.
Arguments fill_entry_dbx {datetime}.
Arguments fill_state_dbx_while {datetime}.
Arguments fill_state_dbx {datetime}.
Arguments fill_entry_nxc {datetime}.
Arguments fill_state_nxc {datetime}.
Arguments get_state {datetime}.

(** ** Snapshot Normalizer *)

(** One turn of a loop of [normalize_states]:
    [if not key in dst: dst[key] = get_empty_state_entry(value['name'], value['path'])]. *)
Definition add_missing_step (dst : state) (kv : string * state_entry) : state :=
  let '(key, value) := kv in
  if Py.contains dst key then dst
  else Py.set dst key (get_empty_state_entry (name value) (path value)).

(** One loop of [normalize_states]: every key of [src] that [dst] lacks is
    added to [dst] with an empty entry that carries the source's name and
    path. *)
Definition add_missing (src dst : state) : state := fold_left add_missing_step src dst.

(** Both dicts are changed in place; the pair is what they hold afterwards. *)
Definition normalize_states (_state_a _state_b : state) : state * state :=
  let _state_b := add_missing _state_a _state_b in
  let _state_a := add_missing _state_b _state_a in
  (_state_a, _state_b).

(** ** Change Classifier *)

Definition is_folder (_path : string) : bool := Py.endswith_char _path "/".

Definition rbind {A B} (r : result A) (f : A -> result B) : result B :=
  match r with Ok a => f a | Raise e => Raise e end.

Definition has_changed (_path_lower : string) (_state_prev _state_curr : state)
    (_cloud_type : cloud_type) : result bool :=
  rbind (getitem _state_prev _path_lower) (fun p =>
  rbind (getitem _state_curr _path_lower) (fun c =>
  if negb (Bool.eqb (existent (cloud p _cloud_type)) (existent (cloud c _cloud_type)))
  then Ok true
  else if is_folder _path_lower then Ok false
  else Ok (time_neq (time (cloud p _cloud_type)) (time (cloud c _cloud_type))))).

Definition has_been_created (_path_lower : string) (_state_prev _state_curr : state)
    (_cloud_type : cloud_type) : result bool :=
  rbind (getitem _state_prev _path_lower) (fun p =>
  if negb (existent (cloud p _cloud_type))
  then rbind (getitem _state_curr _path_lower) (fun c => Ok (existent (cloud c _cloud_type)))
  else Ok false).

Definition has_been_changed (_path_lower : string) (_state_prev _state_curr : state)
    (_cloud_type : cloud_type) : result bool :=
  if is_folder _path_lower then Ok false
  else
    rbind (getitem _state_prev _path_lower) (fun p =>
    rbind (getitem _state_curr _path_lower) (fun c =>
    Ok (time_neq (time (cloud p _cloud_type)) (time (cloud c _cloud_type))))).

Definition has_been_deleted (_path_lower : string) (_state_prev _state_curr : state)
    (_cloud_type : cloud_type) : result bool :=
  rbind (getitem _state_prev _path_lower) (fun p =>
  if existent (cloud p _cloud_type)
  then rbind (getitem _state_curr _path_lower) (fun c => Ok (negb (existent (cloud c _cloud_type))))
  else Ok false).

(** ** Backend actions, the Seed Reconciler and the Reconciler *)

Section Script.

Variable cfg : config.

(** [SIMULATE or VERBOSE] *)
Definition loud : bool := SIMULATE cfg || VERBOSE cfg.

Definition create_folder_dbx (_path : string) : M unit :=
  let _path := Py.rstrip_char _path "/" in
  when loud (emit (Print ("create_folder_dbx(" ++ DROPBOX_SYNC_ROOT cfg ++ _path ++ ")"))) ;;
  when (negb (SIMULATE cfg)) (emit (DbxFilesCreateFolder (DROPBOX_SYNC_ROOT cfg ++ _path))).

Definition create_folder_nxc (_path : string) : M unit :=
  when loud (emit (Print ("create_folder_nxc(" ++ NEXTCLOUD_SYNC_ROOT cfg ++ _path ++ ")"))) ;;
  when (negb (SIMULATE cfg))
    (emit (NxcCreateFolder (NEXTCLOUD_USER cfg) (NEXTCLOUD_SYNC_ROOT cfg ++ _path))).

Definition move_nxc (_path _destination_path : string) : M unit :=
  when loud (emit (Print ("move_nxc(" ++ NEXTCLOUD_SYNC_ROOT cfg ++ _path ++ ", "
                            ++ NEXTCLOUD_SYNC_ROOT cfg ++ _destination_path ++ ")"))) ;;
  when (negb (SIMULATE cfg))
    (emit (NxcMovePath (NEXTCLOUD_USER cfg) (NEXTCLOUD_SYNC_ROOT cfg ++ _path)
             (NEXTCLOUD_SYNC_ROOT cfg ++ _destination_path))).

Definition download_file_dbx (_path : string) : M string :=
  let filename := Py.slice_from (Z.to_nat (Py.rfind _path "/" + 1)) _path in
  when loud (emit (Print ("download_file_dbx(" ++ DROPBOX_SYNC_ROOT cfg ++ _path
                            ++ "), [also exeuted if --simulate]"))) ;;
  emit (DbxFilesDownloadToFile filename (DROPBOX_SYNC_ROOT cfg ++ _path)) ;;
  ret filename.

Definition download_file_nxc (_path : string) : M string :=
  let filename := Py.slice_from (Z.to_nat (Py.rfind _path "/" + 1)) _path in
  when loud (emit (Print ("download_file_nxc(" ++ NEXTCLOUD_SYNC_ROOT cfg ++ _path
                            ++ "), [also exeuted if --simulate]"))) ;;
  emit (NxcDownloadFile (NEXTCLOUD_USER cfg) (NEXTCLOUD_SYNC_ROOT cfg ++ _path)) ;;
  ret filename.

(** [get_hash] reads [full_path], a name bound nowhere in the script. *)
Definition get_hash (_local_filepath : string) : M string :=
  raise (NameError "full_path").

(** [get_hash_dbx] and [get_hash_nxc] pass [_local_filepath], a name bound
    neither in them nor globally, so the call of [get_hash] is never
    reached. *)
Definition get_hash_dbx (_path : string) : M string :=
  tmp_filepath <- download_file_dbx _path ;;
  _local_filepath <- raise (NameError "_local_filepath") ;;
  file_hash <- get_hash _local_filepath ;;
  emit (OsRemove tmp_filepath) ;;
  when loud (emit (Print ("get_hash_dbx(" ++ _path ++ ") -> " ++ file_hash))) ;;
  ret file_hash.

Definition get_hash_nxc (_path : string) : M string :=
  tmp_filepath <- download_file_nxc _path ;;
  _local_filepath <- raise (NameError "_local_filepath") ;;
  file_hash <- get_hash _local_filepath ;;
  emit (OsRemove tmp_filepath) ;;
  when loud (emit (Print ("get_hash_nxc(" ++ _path ++ ") -> " ++ file_hash))) ;;
  ret file_hash.

Definition upload_file_dbx (_path _local_filepath : string) : M unit :=
  when loud (emit (Print ("upload_file_dbx(" ++ DROPBOX_SYNC_ROOT cfg ++ _path ++ ", "
                            ++ _local_filepath ++ ")"))) ;;
  when (negb (SIMULATE cfg))
    (emit (DbxFilesUpload _local_filepath (DROPBOX_SYNC_ROOT cfg ++ _path))).

Definition upload_file_nxc (_path _local_filepath : string) : M unit :=
  when loud (emit (Print ("upload_file_nxc(" ++ NEXTCLOUD_SYNC_ROOT cfg ++ _path ++ ", "
                            ++ _local_filepath ++ ")"))) ;;
  when (negb (SIMULATE cfg))
    (emit (NxcUploadFile (NEXTCLOUD_USER cfg) _local_filepath (NEXTCLOUD_SYNC_ROOT cfg ++ _path))).

Definition delete_on_dbx (_path : string) : M unit :=
  let _path := Py.rstrip_char _path "/" in
  when loud (emit (Print ("delete_on_dbx(" ++ DROPBOX_SYNC_ROOT cfg ++ _path ++ ")"))) ;;
  when (negb (SIMULATE cfg)) (emit (DbxFilesDelete (DROPBOX_SYNC_ROOT cfg ++ _path))).

Definition delete_on_nxc (_path : string) : M unit :=
  when loud (emit (Print ("delete_on_nxc(" ++ NEXTCLOUD_SYNC_ROOT cfg ++ _path ++ ")"))) ;;
  when (negb (SIMULATE cfg))
    (emit (NxcDeletePath (NEXTCLOUD_USER cfg) (NEXTCLOUD_SYNC_ROOT cfg ++ _path))).

Definition copy_to_dbx (_path : string) : M unit :=
  when loud (emit (Print ("copy_to_dbx(" ++ _path ++ ")"))) ;;
  if is_folder _path then create_folder_dbx _path
  else
    tmp_filepath <- download_file_nxc _path ;;
    upload_file_dbx _path tmp_filepath ;;
    emit (OsRemove tmp_filepath).

Definition copy_to_nxc (_path : string) : M unit :=
  when loud (emit (Print ("copy_to_nxc(" ++ _path ++ ")"))) ;;
  if is_folder _path then create_folder_nxc _path
  else
    tmp_filepath <- download_file_dbx _path ;;
    upload_file_nxc _path tmp_filepath ;;
    emit (OsRemove tmp_filepath).

(** [for ignore_folder in _ignore_folders: if key.startswith(ignore_folder):
    ignore = True], started from [ignore]. *)
Definition ignore_loop (key : string) (_ignore_folders : list string) (ignore : bool) : bool :=
  fold_left
    (fun ignore ignore_folder => if Py.startswith key ignore_folder then true else ignore)
    _ignore_folders ignore.

(** The body of the loop of [apply_state] (lines 389-405). *)
Definition apply_state_body (_ignore_folders : list string) (kv : string * state_entry)
    : M unit :=
  let '(key, value) := kv in
  let existent_in_dbx := existent (dbx value) in
  let existent_in_nxc := existent (nxc value) in
  let ignore := false in
  let ignore :=
    if (key =? "") || (key =? "/") then true
    else if Bool.eqb existent_in_dbx existent_in_nxc then true
    else ignore_loop key _ignore_folders ignore in
  if ignore then ret tt
  else if negb existent_in_dbx then copy_to_dbx (path value)
  else if negb existent_in_nxc then copy_to_nxc (path value)
  else ret tt.

Definition apply_state (_state : state) (_ignore_folders : list string) : M unit :=
  for_each _state (apply_state_body _ignore_folders).

(** [' (NextCloud - ' + t + ')'] appended to a path; a [None] time cannot
    be concatenated. *)
Definition nxc_conflict_path (path : string) (t : option string) : M string :=
  match t with
  | Some t => ret (path ++ " (NextCloud - " ++ t ++ ")")
  | None => raise (TypeError "can only concatenate str (not NoneType) to str")
  end.

(** Lines 462-466, and again 472-476 with the same text. *)
Definition resolve_conflict (path : string) (value : state_entry) : M unit :=
  hash_dbx <- get_hash_dbx path ;;
  hash_nxc <- get_hash_nxc path ;;
  if negb (hash_dbx =? hash_nxc) then
    nxc_path <- nxc_conflict_path path (time (nxc value)) ;;
    move_nxc path nxc_path ;;
    copy_to_nxc path ;;
    copy_to_dbx nxc_path
  else ret tt.

(** The body of the loop of [sync_state] (lines 413-476), on the two
    states as [normalize_states] left them. *)
Definition sync_state_body (_state_prev _state_curr : state) (_ignore_folders : list string)
    (kv : string * state_entry) : M unit :=
  let '(key, value) := kv in
  let ignore := false in
  let ignore :=
    if (key =? "") || (key =? "/") then true
    else ignore_loop key _ignore_folders ignore in
  if ignore then ret tt
  else
    let path := path value in
    has_changed_dbx <- lift (has_changed key _state_prev _state_curr Dbx) ;;
    has_changed_nxc <- lift (has_changed key _state_prev _state_curr Nxc) ;;
    has_been_created_dbx <- lift (has_been_created key _state_prev _state_curr Dbx) ;;
    has_been_created_nxc <- lift (has_been_created key _state_prev _state_curr Nxc) ;;
    has_been_changed_dbx <- lift (has_been_changed key _state_prev _state_curr Dbx) ;;
    has_been_changed_nxc <- lift (has_been_changed key _state_prev _state_curr Nxc) ;;
    has_been_deleted_dbx <- lift (has_been_deleted key _state_prev _state_curr Dbx) ;;
    has_been_deleted_nxc <- lift (has_been_deleted key _state_prev _state_curr Nxc) ;;
    when (loud && (has_changed_dbx || has_changed_nxc))
      (emit (Print "===") ;;
       emit (Print path) ;;
       emit (Print ("has_changed_dbx: " ++ Py.str_bool has_changed_dbx)) ;;
       emit (Print ("has_changed_nxc: " ++ Py.str_bool has_changed_nxc)) ;;
       emit (Print ("has_been_created_dbx: " ++ Py.str_bool has_been_created_dbx)) ;;
       emit (Print ("has_been_created_nxc: " ++ Py.str_bool has_been_created_nxc)) ;;
       emit (Print ("has_been_changed_dbx: " ++ Py.str_bool has_been_changed_dbx)) ;;
       emit (Print ("has_been_changed_nxc: " ++ Py.str_bool has_been_changed_nxc)) ;;
       emit (Print ("has_been_deleted_dbx: " ++ Py.str_bool has_been_deleted_dbx)) ;;
       emit (Print ("has_been_deleted_nxc: " ++ Py.str_bool has_been_deleted_nxc)) ;;
       emit (Print "---")) ;;
    if has_changed_dbx && negb has_changed_nxc then
      if has_been_created_dbx then copy_to_nxc path
      else if has_been_deleted_dbx then delete_on_nxc path
      else if has_been_changed_dbx then copy_to_nxc path
      else ret tt
    else if negb has_changed_dbx && has_changed_nxc then
      if has_been_created_nxc then copy_to_dbx path
      else if has_been_deleted_nxc then delete_on_dbx path
      else if has_been_changed_nxc then copy_to_dbx path
      else ret tt
    else if has_changed_dbx && has_changed_nxc then
      if has_been_created_dbx && has_been_created_nxc then resolve_conflict path value
      else if has_been_changed_dbx && has_been_deleted_nxc then copy_to_nxc path
      else if has_been_deleted_dbx && has_been_changed_nxc then copy_to_dbx path
      else if has_been_changed_dbx && has_been_changed_nxc then resolve_conflict path value
      else ret tt
    else ret tt.

Definition sync_state (_state_prev _state_curr : state) (_ignore_folders : list string)
    : M unit :=
  let '(_state_prev, _state_curr) := normalize_states _state_prev _state_curr in
  for_each _state_curr (sync_state_body _state_prev _state_curr _ignore_folders).

End Script.

(** ** The command line and [main] *)

(** The parsed command line, as far as [main] reads it; the server address,
    the password and the token only go into the two client objects. *)
Record arguments : Type := mk_arguments {
  arg_dropbox_root : string;
  arg_nextcloud_root : string;
  arg_nextcloud_user : string;
  arg_ignore_folder : option (list string);
  arg_create_state : bool;
  arg_apply_state : bool;
  arg_simulate : bool;
  arg_verbose : bool
}.

(** How a run of [main] ends: normally, with an exception of the script, or
    with the [FileNotFoundError] of [read_state] on a missing file. *)
Inductive main_exit : Type :=
| Exit0
| Uncaught (e : exn)
| FileNotFoundError (filename : string).

(** What a run leaves behind: the events in their order, the content of
    [state.json] (none when the file does not exist) and the way it ended. *)
Record main_run : Type := mk_main_run {
  run_events : list event;
  run_state_json : option state;
  run_exit : main_exit
}.

Section Main.

Variable datetime : Type.
Variable strftime : datetime -> string -> string.
Variable strptime : string -> string -> datetime.
Variable unquote : string -> string.

(** The globals as [main] sets them (lines 113-119); [now] is the value of
    [TIME_NOW_STR], fixed when the script is loaded. *)
Definition config_of (now : string) (args : arguments) : config :=
  {| TIME_NOW_STR := now;
     DROPBOX_SYNC_ROOT := arg_dropbox_root args;
     NEXTCLOUD_USER := arg_nextcloud_user args;
     NEXTCLOUD_SYNC_ROOT := arg_nextcloud_root args;
     SIMULATE := arg_simulate args;
     VERBOSE := arg_verbose args |}.

(** [main] (lines 96-138).  [state.json] is kept as the state it holds:
    [write_state] stores a state and [read_state] gives it back, or fails
    when there is no file.  [world n] is what the two clients list at the
    [n]-th call of [get_state] in this run, counted from 0. *)
Definition main (now : string) (args : arguments)
    (world : nat -> dropbox datetime * nextcloud) (state_json : option state) : main_run :=
  let ignore_folders :=
    match arg_ignore_folder args with Some l => l | None => [] end in
  let warning :=
    if arg_create_state args && arg_simulate args
    then [Print "Warning: Creation of state file cannot be simulated. This might do nothing."]
    else [] in
  let cfg := config_of now args in
  let snapshot n := get_state strftime strptime unquote cfg (fst (world n)) (snd (world n)) in
  if arg_create_state args || arg_apply_state args then
    let created := arg_create_state args && negb (SIMULATE cfg) in
    let state_json := if created then Some (snapshot 0) else state_json in
    let calls := if created then 1 else 0 in
    if arg_apply_state args then
      match state_json with
      | None =>
          {| run_events := warning; run_state_json := None;
             run_exit := FileNotFoundError "state.json" |}
      | Some state_curr =>
          let '(t, r) := apply_state cfg state_curr ignore_folders in
          match r with
          | Ok _ =>
              {| run_events := (warning ++ t)%list;
                 run_state_json := Some (snapshot calls); run_exit := Exit0 |}
          | Raise e =>
              {| run_events := (warning ++ t)%list;
                 run_state_json := state_json; run_exit := Uncaught e |}
          end
      end
    else {| run_events := warning; run_state_json := state_json; run_exit := Exit0 |}
  else
    match state_json with
    | None =>
        {| run_events := warning; run_state_json := None;
           run_exit := FileNotFoundError "state.json" |}
    | Some state_prev =>
        let state_curr := snapshot 0 in
        let '(t, r) := sync_state cfg state_prev state_curr ignore_folders in
        match r with
        | Ok _ =>
            {| run_events := (warning ++ t)%list;
               run_state_json := Some (snapshot 1); run_exit := Exit0 |}
        | Raise e =>
            {| run_events := (warning ++ t)%list;
               run_state_json := state_json; run_exit := Uncaught e |}
        end
    end.

End Main.

Arguments main {datetime}.

(** ** Vocabulary of the properties *)

(** The calls that change a backend: create folder, upload, delete, move.
    Downloads, printing and the removal of the local temporary file do not. *)
Definition mutates_backend (ev : event) : bool :=
  match ev with
  | DbxFilesCreateFolder _ | DbxFilesUpload _ _ | DbxFilesDelete _
  | NxcCreateFolder _ _ | NxcMovePath _ _ _ | NxcUploadFile _ _ _ | NxcDeletePath _ _ => true
  | Print _ | DbxFilesDownloadToFile _ _ | NxcDownloadFile _ _ | OsRemove _ => false
  end.

(** A computation that issues no mutating backend call. *)
Definition quiet {A} (m : M A) : Prop :=
  Forall (fun ev => mutates_backend ev = false) (trace m).

(** What a state records for a key on one backend; a key the state lacks
    counts as absent there, which is what [normalize_states] makes of it. *)
Definition observed (st : state) (key : string) (c : cloud_type) : cloud_state :=
  match Py.get st key with
  | Some e => cloud e c
  | None => {| existent := false; time := None |}
  end.

(** The root of the namespace, as both reconcilers test for it. *)
Definition is_root (key : string) : bool := (key =? "") || (key =? "/").

(** Exactly one of three verdicts. *)
Definition exactly_one (a b c : bool) : bool :=
  (a && negb b && negb c) || (negb a && b && negb c) || (negb a && negb b && c).

(** The four verdicts of the classifier on two entries of one key. *)
Definition changed_of (key : string) (p c : cloud_state) : bool :=
  if negb (Bool.eqb (existent p) (existent c)) then true
  else if is_folder key then false
  else time_neq (time p) (time c).
Definition created_of (p c : cloud_state) : bool := negb (existent p) && existent c.
Definition modified_of (key : string) (p c : cloud_state) : bool :=
  if is_folder key then false else time_neq (time p) (time c).
Definition deleted_of (p c : cloud_state) : bool := existent p && negb (existent c).

(** An entry keeps what the Dropbox pass recorded for it. *)
Definition keeps_dropbox_side (e e' : state_entry) : Prop :=
  name e' = name e /\ path e' = path e /\ dbx e' = dbx e.

(** The key under which the Dropbox pass files an entry of a listing. *)
Definition dbx_key {datetime : Type} (cfg : config) (entry : dbx_metadata datetime)
    : option string :=
  let root := String.length (DROPBOX_SYNC_ROOT cfg) in
  match entry with
  | FolderMetadata _ path_lower _ => Some (Py.slice_from root path_lower ++ "/")
  | FileMetadata _ path_lower _ _ => Some (Py.slice_from root path_lower)
  | DeletedMetadata _ _ _ => None
  end.

(** The key under which the NextCloud pass files an item. *)
Definition nxc_key (unquote : string -> string) (cfg : config) (item : nxc_item) : string :=
  Py.lower (Py.slice_from (String.length (NEXTCLOUD_SYNC_ROOT_TEXT cfg)) (unquote (href item))).

(** A state that has the key, as existing on Dropbox. *)
Definition on_dropbox (st : state) (key : string) : Prop :=
  exists e, Py.get st key = Some e /\ existent (dbx e) = true.

(** A state that has the key, as existing on NextCloud. *)
Definition on_nextcloud (st : state) (key : string) : Prop :=
  exists e, Py.get st key = Some e /\ existent (nxc e) = true.

(** Only printing. *)
Definition is_print (ev : event) : bool :=
  match ev with Print _ => true | _ => false end.

(** ** Concrete runs *)

Module Examples.

Definition cfg_run : config :=
  {| TIME_NOW_STR := "20191101120000"; DROPBOX_SYNC_ROOT := "/";
     NEXTCLOUD_USER := "alice"; NEXTCLOUD_SYNC_ROOT := "/";
     SIMULATE := false; VERBOSE := false |}.

Definition cfg_dry : config :=
  {| TIME_NOW_STR := "20191101120000"; DROPBOX_SYNC_ROOT := "/";
     NEXTCLOUD_USER := "alice"; NEXTCLOUD_SYNC_ROOT := "/";
     SIMULATE := true; VERBOSE := false |}.

Definition present (t : string) : cloud_state := {| existent := true; time := Some t |}.
Definition absent : cloud_state := {| existent := false; time := None |}.

(** A [datetime] kept as the text [strftime] prints for it. *)
Definition strftime_text (d fmt : string) : string := d.
Definition strptime_text (s fmt : string) : string := s.
Definition unquote_plain (s : string) : string := s.

(** A file that was on both backends and is now on neither. *)
Definition gone_prev : state :=
  [("a.txt", {| dbx := present "20191030101500"; nxc := present "20191030101500";
                name := "a.txt"; path := "a.txt" |})].
Definition gone_curr : state := [].

(** A file edited on both backends since the last run. *)
Definition edited_prev : state :=
  [("a.txt", {| dbx := present "20191030101500"; nxc := present "20191030101500";
                name := "a.txt"; path := "a.txt" |})].
Definition edited_curr : state :=
  [("a.txt", {| dbx := present "20191031090000"; nxc := present "20191031170000";
                name := "a.txt"; path := "a.txt" |})].

(** A folder made on both backends since the last run. *)
Definition folder_prev : state := [].
Definition folder_curr : state :=
  [("docs/", {| dbx := present "20191101120000"; nxc := present "20191031170000";
                name := "Docs"; path := "Docs/" |})].

(** A file made on Dropbox since the last run. *)
Definition fresh_prev : state := [].
Definition fresh_curr : state :=
  [("a.txt", {| dbx := present "20191031090000"; nxc := absent;
                name := "a.txt"; path := "a.txt" |})].

(** The same namespace seen twice, the second time under another casing
    and with a key that is on neither backend. *)
Definition still_prev : state :=
  [("a.txt", {| dbx := present "20191030101500"; nxc := present "20191030101501";
                name := "a.txt"; path := "a.txt" |});
   ("docs/", {| dbx := absent; nxc := present "20191030000000";
                name := "Docs"; path := "Docs/" |})].
Definition still_curr : state :=
  [("a.txt", {| dbx := present "20191030101500"; nxc := present "20191030101501";
                name := "A.txt"; path := "A.txt" |});
   ("docs/", {| dbx := absent; nxc := present "20191030000000";
                name := "docs"; path := "docs/" |});
   ("old.txt", {| dbx := absent; nxc := absent; name := "old.txt"; path := "old.txt" |})].

(** A seed state: a folder on Dropbox only, a file on NextCloud only, a
    file on both, and the root. *)
Definition seed_state : state :=
  [("/", {| dbx := absent; nxc := present "20191030000000"; name := ""; path := "/" |});
   ("docs/", {| dbx := present "20191101120000"; nxc := absent;
                name := "Docs"; path := "Docs/" |});
   ("docs/b.txt", {| dbx := absent; nxc := present "20191030101500";
                     name := "b.txt"; path := "docs/b.txt" |});
   ("a.txt", {| dbx := present "20191030101500"; nxc := present "20191030101501";
                name := "a.txt"; path := "a.txt" |})].

(** A Dropbox listing that fits in one page, and one that takes two. *)
Definition one_page : dropbox string :=
  {| files_list_folder :=
       {| entries := [FileMetadata "a.txt" "/a.txt" "/a.txt" "20191030101500"];
          cursor := [] |} |}.

Definition two_pages : dropbox string :=
  {| files_list_folder :=
       {| entries := [FileMetadata "a.txt" "/a.txt" "/a.txt" "20191030101500"];
          cursor := [[FolderMetadata "Docs" "/docs" "/Docs";
                      FileMetadata "Report.TXT" "/docs/report.txt" "/Docs/Report.TXT"
                        "20191031090000"]] |} |}.

Definition nxc_listing : nextcloud :=
  {| is_ok := true;
     data := [ {| href := "/remote.php/dav/files/alice/";
                  last_modified := "20191030000000" |};
               {| href := "/remote.php/dav/files/alice/docs/";
                  last_modified := "20191031170000" |};
               {| href := "/remote.php/dav/files/alice/docs/report.txt";
                  last_modified := "20191031170500" |} ] |}.

End Examples.

(** ** Vocabulary of the further properties *)

(** The events other than printing. *)
Definition actions (t : list event) : list event :=
  filter (fun ev => negb (is_print ev)) t.

(** The same globals with another [VERBOSE]. *)
Definition with_verbose (b : bool) (cfg : config) : config :=
  {| TIME_NOW_STR := TIME_NOW_STR cfg;
     DROPBOX_SYNC_ROOT := DROPBOX_SYNC_ROOT cfg;
     NEXTCLOUD_USER := NEXTCLOUD_USER cfg;
     NEXTCLOUD_SYNC_ROOT := NEXTCLOUD_SYNC_ROOT cfg;
     SIMULATE := SIMULATE cfg;
     VERBOSE := b |}.

(** Two computations that do the same but for what they print. *)
Definition same_actions {A} (m1 m2 : M A) : Prop :=
  actions (trace m1) = actions (trace m2) /\ outcome m1 = outcome m2.

(** An entry [get_empty_state_entry] made from the name and the path of an
    entry of [src] under the same key. *)
Definition empty_copy_from (src : state) (kv : string * state_entry) : Prop :=
  exists v, In (fst kv, v) src /\ snd kv = get_empty_state_entry (name v) (path v).

(** Every entry of a state has a property. *)
Definition entries_all (P : state_entry -> Prop) (st : state) : Prop :=
  forall key e, Py.get st key = Some e -> P e.

(** A time is recorded exactly where the object exists. *)
Definition timed (s : cloud_state) : bool :=
  Bool.eqb (existent s) (match time s with Some _ => true | None => false end).

(** What [get_state] keeps true of every entry: it exists on a backend, and
    each side has a time exactly when it exists there. *)
Definition snapshot_entry (e : state_entry) : Prop :=
  existent (dbx e) || existent (nxc e) = true /\ timed (dbx e) = true /\ timed (nxc e) = true.

(** Two entries of one key that differ at most in the Dropbox time of a
    folder. *)
Definition same_but_folder_time (key : string) (e1 e2 : state_entry) : Prop :=
  name e1 = name e2 /\ path e1 = path e2 /\ nxc e1 = nxc e2 /\
  existent (dbx e1) = existent (dbx e2) /\
  (is_folder key = false -> time (dbx e1) = time (dbx e2)).

Definition states_alike (s1 s2 : state) : Prop :=
  Forall2 (fun kv1 kv2 => fst kv1 = fst kv2 /\ same_but_folder_time (fst kv1) (snd kv1) (snd kv2))
          s1 s2.

(** The rename on NextCloud, and the deletes. *)
Definition is_move (ev : event) : bool :=
  match ev with NxcMovePath _ _ _ => true | _ => false end.

Definition is_delete (ev : event) : bool :=
  match ev with DbxFilesDelete _ | NxcDeletePath _ _ => true | _ => false end.

(** A computation none of whose events is of a given kind. *)
Definition never {A} (bad : event -> bool) (m : M A) : Prop :=
  Forall (fun ev => bad ev = false) (trace m).

(** [c in s] for a character. *)
Fixpoint has_char (s : string) (c : ascii) : bool :=
  match s with
  | EmptyString => false
  | String a s' => Ascii.eqb a c || has_char s' c
  end.

(** The name of the local file that [download_file_dbx] and
    [download_file_nxc] write: [_path[_path.rfind('/')+1:]]. *)
Definition tmp_filename (_path : string) : string :=
  Py.slice_from (Z.to_nat (Py.rfind _path "/" + 1)) _path.

(** The copy of a path has reached NextCloud: the folder was made there,
    or the file was uploaded there. *)
Definition copied_to_nxc (cfg : config) (_path : string) (t : list event) : Prop :=
  if is_folder _path
  then In (NxcCreateFolder (NEXTCLOUD_USER cfg) (NEXTCLOUD_SYNC_ROOT cfg ++ _path)) t
  else In (NxcUploadFile (NEXTCLOUD_USER cfg) (tmp_filename _path)
             (NEXTCLOUD_SYNC_ROOT cfg ++ _path)) t.

Module More.

(** A run that prints and does not simulate. *)
Definition cfg_verbose : config :=
  {| TIME_NOW_STR := "20191101120000"; DROPBOX_SYNC_ROOT := "/";
     NEXTCLOUD_USER := "alice"; NEXTCLOUD_SYNC_ROOT := "/";
     SIMULATE := false; VERBOSE := true |}.

(** A Dropbox listing whose first page holds the report and whose second
    page holds another file, and a NextCloud that lists both. *)
Definition report_on_first_page : dropbox string :=
  {| files_list_folder :=
       {| entries := [FileMetadata "Report.TXT" "/report.txt" "/Report.TXT" "20191031090000"];
          cursor := [[FileMetadata "B.txt" "/b.txt" "/B.txt" "20191030101500"]] |} |}.

Definition nxc_report_and_b : nextcloud :=
  {| is_ok := true;
     data := [ {| href := "/remote.php/dav/files/alice/report.txt";
                  last_modified := "20191031170500" |};
               {| href := "/remote.php/dav/files/alice/b.txt";
                  last_modified := "20191030101501" |} ] |}.

(** A previous state with a file only, and a current state in which
    NextCloud has a new folder. *)
Definition prev_a : state :=
  [("a.txt", {| dbx := Examples.present "20191030101500";
                nxc := Examples.present "20191030101501";
                name := "a.txt"; path := "a.txt" |})].
Definition curr_b : state :=
  [("docs/", {| dbx := Examples.absent; nxc := Examples.present "20191031170000";
                name := "docs"; path := "docs/" |})].

(** The same folders seen at two run times; a file unchanged. *)
Definition folders_prev : state :=
  [("docs/", {| dbx := Examples.present "20191030120000";
                nxc := Examples.present "20191030000000";
                name := "Docs"; path := "Docs/" |});
   ("docs/a.txt", {| dbx := Examples.present "20191030101500";
                     nxc := Examples.present "20191030101501";
                     name := "a.txt"; path := "Docs/a.txt" |})].
Definition folders_curr : state :=
  [("docs/", {| dbx := Examples.present "20191101120000";
                nxc := Examples.present "20191031235959";
                name := "Docs"; path := "Docs/" |});
   ("docs/a.txt", {| dbx := Examples.present "20191030101500";
                     nxc := Examples.present "20191030101501";
                     name := "a.txt"; path := "Docs/a.txt" |})].

(** An entry that exists on both backends with the given times. *)
Definition both (n p td tn : string) : state_entry :=
  {| dbx := Examples.present td; nxc := Examples.present tn; name := n; path := p |}.
Definition dbx_only (n p td : string) : state_entry :=
  {| dbx := Examples.present td; nxc := Examples.absent; name := n; path := p |}.
Definition nxc_only (n p tn : string) : state_entry :=
  {| dbx := Examples.absent; nxc := Examples.present tn; name := n; path := p |}.
Definition neither (n p : string) : state_entry :=
  {| dbx := Examples.absent; nxc := Examples.absent; name := n; path := p |}.

(** A run that meets a conflict in the middle. *)
Definition abort_prev : state :=
  [("a.txt", both "a.txt" "a.txt" "20191030101500" "20191030101500")].
Definition abort_curr : state :=
  [("new.txt", dbx_only "new.txt" "new.txt" "20191031080000");
   ("a.txt", both "a.txt" "a.txt" "20191031090000" "20191031170000");
   ("late.txt", dbx_only "late.txt" "late.txt" "20191031180000")].

Definition args_sync : arguments :=
  {| arg_dropbox_root := "/"; arg_nextcloud_root := "/"; arg_nextcloud_user := "alice";
     arg_ignore_folder := None; arg_create_state := false; arg_apply_state := false;
     arg_simulate := false; arg_verbose := false |}.

Definition args_dry : arguments :=
  {| arg_dropbox_root := "/"; arg_nextcloud_root := "/"; arg_nextcloud_user := "alice";
     arg_ignore_folder := Some ["tmp/"]; arg_create_state := false; arg_apply_state := false;
     arg_simulate := true; arg_verbose := false |}.

Definition args_verbose : arguments :=
  {| arg_dropbox_root := "/"; arg_nextcloud_root := "/"; arg_nextcloud_user := "alice";
     arg_ignore_folder := None; arg_create_state := false; arg_apply_state := false;
     arg_simulate := false; arg_verbose := true |}.

(** The state of a run before the report was edited on Dropbox. *)
Definition before_edit : state :=
  [("docs/", both "Docs" "Docs/" "20191029120000" "20191031170000");
   ("docs/report.txt", both "Report.TXT" "Docs/Report.TXT" "20191030000000" "20191031170500")].

(** Backends that list the same at every call. *)
Definition steady_world (n : nat) : dropbox string * nextcloud :=
  (Examples.two_pages, Examples.nxc_listing).

(** A NextCloud whose listing fails. *)
Definition nxc_failed : nextcloud :=
  {| is_ok := false;
     data := [ {| href := "/remote.php/dav/files/alice/docs/";
                  last_modified := "20191031170000" |} ] |}.

End More.

(** ** The monad and the loops *)

Lemma bind_ret {A B} (a : A) (f : A -> M B) : bind (ret a) f = f a.
Proof. unfold bind, ret. destruct (f a); reflexivity. Qed.

Lemma bind_lift_ok {A B} (a : A) (f : A -> M B) : bind (lift (Ok a)) f = f a.
Proof. apply bind_ret. Qed.

Lemma bind_raise {A B} (e : exn) (f : A -> M B) : bind (raise e) f = raise e.
Proof. reflexivity. Qed.

Lemma for_each_all_ok {A} (xs : list A) (body : A -> M unit) :
  (forall x, In x xs -> outcome (body x) = Ok tt) ->
  for_each xs body = (flat_map (fun x => trace (body x)) xs, Ok tt).
Proof.
  induction xs as [|x xs IH]; intros Hok; [reflexivity|].
  cbn [for_each flat_map].
  pose proof (Hok x (or_introl eq_refl)) as Hx.
  rewrite IH by (intros y Hy; apply Hok; right; exact Hy).
  destruct (body x) as [t r]; cbn in Hx |- *; subst r; reflexivity.
Qed.

Lemma for_each_skip {A} (skip : A -> bool) (xs : list A) (body : A -> M unit) :
  (forall x, skip x = true -> body x = ret tt) ->
  for_each (filter (fun x => negb (skip x)) xs) body = for_each xs body.
Proof.
  intros Hskip; induction xs as [|x xs IH]; [reflexivity|].
  cbn [filter for_each]. destruct (skip x) eqn:E; cbn [negb].
  - rewrite (Hskip x E), bind_ret. exact IH.
  - cbn [for_each]. rewrite IH. reflexivity.
Qed.

Lemma quiet_ret {A} (a : A) : quiet (ret a).
Proof. constructor. Qed.

Lemma quiet_raise {A} (e : exn) : quiet (raise (A := A) e).
Proof. constructor. Qed.

Lemma quiet_lift {A} (r : result A) : quiet (lift r).
Proof. constructor. Qed.

Lemma quiet_emit (ev : event) : mutates_backend ev = false -> quiet (emit ev).
Proof. intros H; constructor; [exact H | constructor]. Qed.

Lemma quiet_bind {A B} (m : M A) (f : A -> M B) :
  quiet m -> (forall a, quiet (f a)) -> quiet (bind m f).
Proof.
  unfold quiet, bind, trace. intros Hm Hf.
  destruct m as [t [a|e]]; cbn in *; [|exact Hm].
  specialize (Hf a). destruct (f a) as [t' r]; cbn in *.
  apply Forall_app; split; assumption.
Qed.

Lemma quiet_when (c : bool) (body : M unit) : (c = true -> quiet body) -> quiet (when c body).
Proof. destruct c; intros H; [apply H; reflexivity | apply quiet_ret]. Qed.

Lemma quiet_for_each {A} (xs : list A) (body : A -> M unit) :
  (forall x, quiet (body x)) -> quiet (for_each xs body).
Proof.
  intros H; induction xs as [|x xs IH]; [apply quiet_ret|].
  cbn [for_each]. apply quiet_bind; [apply H | intros _; exact IH].
Qed.

#[local] Ltac quiet_step :=
  first
    [ apply quiet_ret | apply quiet_raise | apply quiet_lift
    | apply quiet_emit; reflexivity
    | apply quiet_when; intros ?
    | apply quiet_bind; [|intros ?] ].

Section QuietActions.
Variable cfg : config.
Hypothesis dry : SIMULATE cfg = true.

#[local] Ltac dry_action := rewrite ?dry; cbn [negb]; repeat quiet_step; try discriminate.

Lemma quiet_create_folder_dbx p : quiet (create_folder_dbx cfg p).
Proof. unfold create_folder_dbx. dry_action. Qed.

Lemma quiet_create_folder_nxc p : quiet (create_folder_nxc cfg p).
Proof. unfold create_folder_nxc. dry_action. Qed.

Lemma quiet_move_nxc p q : quiet (move_nxc cfg p q).
Proof. unfold move_nxc. dry_action. Qed.

Lemma quiet_upload_file_dbx p f : quiet (upload_file_dbx cfg p f).
Proof. unfold upload_file_dbx. dry_action. Qed.

Lemma quiet_upload_file_nxc p f : quiet (upload_file_nxc cfg p f).
Proof. unfold upload_file_nxc. dry_action. Qed.

Lemma quiet_delete_on_dbx p : quiet (delete_on_dbx cfg p).
Proof. unfold delete_on_dbx. dry_action. Qed.

Lemma quiet_delete_on_nxc p : quiet (delete_on_nxc cfg p).
Proof. unfold delete_on_nxc. dry_action. Qed.
End QuietActions.

(** Downloads run in every mode and change no backend. *)
Lemma quiet_download_file_dbx cfg p : quiet (download_file_dbx cfg p).
Proof. unfold download_file_dbx. repeat quiet_step. Qed.

Lemma quiet_download_file_nxc cfg p : quiet (download_file_nxc cfg p).
Proof. unfold download_file_nxc. repeat quiet_step. Qed.

Lemma quiet_get_hash_dbx cfg p : quiet (get_hash_dbx cfg p).
Proof. unfold get_hash_dbx. apply quiet_bind; [apply quiet_download_file_dbx|intros ?]. apply quiet_raise. Qed.

Lemma quiet_get_hash_nxc cfg p : quiet (get_hash_nxc cfg p).
Proof. unfold get_hash_nxc. apply quiet_bind; [apply quiet_download_file_nxc|intros ?]. apply quiet_raise. Qed.

Section QuietReconcilers.
Variable cfg : config.
Hypothesis dry : SIMULATE cfg = true.

Lemma quiet_copy_to_dbx p : quiet (copy_to_dbx cfg p).
Proof.
  unfold copy_to_dbx. apply quiet_bind; [repeat quiet_step|intros _].
  destruct (is_folder p).
  - apply quiet_create_folder_dbx, dry.
  - apply quiet_bind; [apply quiet_download_file_nxc|intros f].
    apply quiet_bind; [apply quiet_upload_file_dbx, dry|intros _].
    apply quiet_emit; reflexivity.
Qed.

Lemma quiet_copy_to_nxc p : quiet (copy_to_nxc cfg p).
Proof.
  unfold copy_to_nxc. apply quiet_bind; [repeat quiet_step|intros _].
  destruct (is_folder p).
  - apply quiet_create_folder_nxc, dry.
  - apply quiet_bind; [apply quiet_download_file_dbx|intros f].
    apply quiet_bind; [apply quiet_upload_file_nxc, dry|intros _].
    apply quiet_emit; reflexivity.
Qed.

Lemma quiet_resolve_conflict p v : quiet (resolve_conflict cfg p v).
Proof.
  unfold resolve_conflict.
  apply quiet_bind; [apply quiet_get_hash_dbx|intros h1].
  apply quiet_bind; [apply quiet_get_hash_nxc|intros h2].
  destruct (negb (h1 =? h2)); [|apply quiet_ret].
  apply quiet_bind; [unfold nxc_conflict_path; destruct (time (nxc v)); quiet_step|intros q].
  apply quiet_bind; [apply quiet_move_nxc, dry|intros _].
  apply quiet_bind; [apply quiet_copy_to_nxc|intros _].
  apply quiet_copy_to_dbx.
Qed.

Lemma quiet_apply_state_body ign kv : quiet (apply_state_body cfg ign kv).
Proof.
  destruct kv as [key value]. unfold apply_state_body.
  repeat match goal with
         | |- quiet (if ?b then _ else _) => destruct b
         end;
    first [apply quiet_ret | apply quiet_copy_to_dbx | apply quiet_copy_to_nxc].
Qed.

Lemma quiet_sync_state_body prev curr ign kv : quiet (sync_state_body cfg prev curr ign kv).
Proof.
  destruct kv as [key value]. unfold sync_state_body.
  match goal with |- quiet (if ?b then _ else _) => destruct b end; [apply quiet_ret|].
  do 8 (apply quiet_bind; [apply quiet_lift|intros ?]).
  apply quiet_bind; [repeat quiet_step|intros _].
  repeat match goal with
         | |- quiet (if ?b then _ else _) => destruct b
         end;
    first [ apply quiet_ret | apply quiet_copy_to_dbx | apply quiet_copy_to_nxc
          | apply quiet_delete_on_dbx, dry | apply quiet_delete_on_nxc, dry
          | apply quiet_resolve_conflict ].
Qed.
End QuietReconcilers.

(** ** Dry run *)

(** C7.  With [SIMULATE] set, neither reconciler issues a call that changes
    a backend, and no single action wrapper does: what is left in the trace
    is printing, downloads and the removal of the local temporary file. *)
Theorem simulate_never_mutates :
  forall cfg prev curr st ign,
    SIMULATE cfg = true ->
    quiet (sync_state cfg prev curr ign) /\
    quiet (apply_state cfg st ign) /\
    (forall p q f,
        quiet (create_folder_dbx cfg p) /\ quiet (create_folder_nxc cfg p) /\
        quiet (move_nxc cfg p q) /\
        quiet (upload_file_dbx cfg p f) /\ quiet (upload_file_nxc cfg p f) /\
        quiet (delete_on_dbx cfg p) /\ quiet (delete_on_nxc cfg p)).
Proof.
  intros cfg prev curr st ign dry. split; [|split].
  - unfold sync_state. destruct (normalize_states prev curr) as [prev' curr'].
    apply quiet_for_each. intros kv. apply quiet_sync_state_body, dry.
  - unfold apply_state. apply quiet_for_each. intros kv.
    apply quiet_apply_state_body, dry.
  - intros p q f.
    repeat split;
      first [ apply quiet_create_folder_dbx | apply quiet_create_folder_nxc
            | apply quiet_move_nxc | apply quiet_upload_file_dbx
            | apply quiet_upload_file_nxc | apply quiet_delete_on_dbx
            | apply quiet_delete_on_nxc ]; exact dry.
Qed.

(** ** The root and the ignored prefixes *)

Lemma ignore_loop_existsb key ign b :
  ignore_loop key ign b = b || existsb (Py.startswith key) ign.
Proof.
  unfold ignore_loop. revert b.
  induction ign as [|f ign IH]; intros b; cbn [fold_left existsb].
  - now rewrite orb_false_r.
  - rewrite IH. destruct (Py.startswith key f), b; reflexivity.
Qed.

Lemma ignore_loop_clear key ign :
  (forall f, In f ign -> Py.startswith key f = false) ->
  ignore_loop key ign false = false.
Proof.
  intros H. rewrite ignore_loop_existsb. cbn [orb].
  destruct (existsb (Py.startswith key) ign) eqn:E; [|reflexivity].
  apply existsb_exists in E. destruct E as (f & Hin & Hf).
  rewrite (H f Hin) in Hf. discriminate.
Qed.

Lemma sync_state_body_root cfg prev curr ign key value :
  is_root key = true -> sync_state_body cfg prev curr ign (key, value) = ret tt.
Proof. unfold is_root, sync_state_body. intros ->. reflexivity. Qed.

Lemma apply_state_body_root cfg ign key value :
  is_root key = true -> apply_state_body cfg ign (key, value) = ret tt.
Proof. unfold is_root, apply_state_body. intros ->. reflexivity. Qed.

(** C9.  In both modes the turn of the loop for the key [""] or ["/"] does
    nothing at all: it returns at once with an empty trace, so no create,
    delete, copy, rename or digest is issued for it; and a whole run is the
    same run with the root entries left out of the loop. *)
Theorem root_never_reconciled :
  forall cfg prev curr st ign key value,
    key = "" \/ key = "/" ->
    sync_state_body cfg prev curr ign (key, value) = ([], Ok tt) /\
    apply_state_body cfg ign (key, value) = ([], Ok tt) /\
    for_each (filter (fun kv => negb (is_root (fst kv))) curr)
             (sync_state_body cfg prev curr ign)
      = for_each curr (sync_state_body cfg prev curr ign) /\
    apply_state cfg (filter (fun kv => negb (is_root (fst kv))) st) ign
      = apply_state cfg st ign.
Proof.
  intros cfg prev curr st ign key value Hroot.
  assert (R : is_root key = true) by (destruct Hroot; subst; reflexivity).
  split; [exact (sync_state_body_root cfg prev curr ign key value R)|].
  split; [exact (apply_state_body_root cfg ign key value R)|].
  split.
  - apply (for_each_skip (fun kv => is_root (fst kv))).
    intros [k v] Hk. apply sync_state_body_root, Hk.
  - unfold apply_state. apply (for_each_skip (fun kv => is_root (fst kv))).
    intros [k v] Hk. apply apply_state_body_root, Hk.
Qed.

(** ** Seed mode *)

Lemma outcome_bind_ok {A B} (m : M A) (f : A -> M B) b :
  (exists a, outcome m = Ok a) -> (forall a, outcome (f a) = Ok b) -> outcome (bind m f) = Ok b.
Proof.
  intros [a Ha] Hf. destruct m as [t r]; cbn in Ha; subst r.
  unfold bind. specialize (Hf a). destruct (f a); exact Hf.
Qed.

Lemma outcome_when c body : outcome body = Ok tt -> outcome (when c body) = Ok tt.
Proof. destruct c; [trivial | reflexivity]. Qed.

#[local] Ltac ok_step :=
  first
    [ reflexivity
    | apply outcome_when
    | apply outcome_bind_ok; [eexists|intros ?] ].

Lemma copy_to_dbx_ok cfg p : outcome (copy_to_dbx cfg p) = Ok tt.
Proof.
  unfold copy_to_dbx, create_folder_dbx, download_file_nxc, upload_file_dbx.
  apply outcome_bind_ok; [exists tt; repeat ok_step|intros _].
  destruct (is_folder p); repeat ok_step.
Qed.

Lemma copy_to_nxc_ok cfg p : outcome (copy_to_nxc cfg p) = Ok tt.
Proof.
  unfold copy_to_nxc, create_folder_nxc, download_file_dbx, upload_file_nxc.
  apply outcome_bind_ok; [exists tt; repeat ok_step|intros _].
  destruct (is_folder p); repeat ok_step.
Qed.

Lemma apply_state_body_ok cfg ign kv : outcome (apply_state_body cfg ign kv) = Ok tt.
Proof.
  destruct kv as [key value]. unfold apply_state_body.
  repeat match goal with
         | |- outcome (if ?b then _ else _) = _ => destruct b
         end;
    first [reflexivity | apply copy_to_dbx_ok | apply copy_to_nxc_ok].
Qed.

(** The turn of the seed loop for a key that is not the root and starts
    with no ignored prefix. *)
Lemma apply_state_body_seed cfg ign key value :
  is_root key = false ->
  (forall f, In f ign -> Py.startswith key f = false) ->
  apply_state_body cfg ign (key, value)
  = if Bool.eqb (existent (dbx value)) (existent (nxc value)) then ret tt
    else if negb (existent (dbx value)) then copy_to_dbx cfg (path value)
    else copy_to_nxc cfg (path value).
Proof.
  intros Hroot Hign. unfold is_root in Hroot. unfold apply_state_body.
  rewrite Hroot, (ignore_loop_clear key ign Hign).
  destruct (existent (dbx value)), (existent (nxc value)); reflexivity.
Qed.

(** What the two copies do when the run does not simulate, printing left
    out. *)
Lemma copy_to_nxc_actions cfg p :
  SIMULATE cfg = false ->
  actions (trace (copy_to_nxc cfg p))
  = if is_folder p
    then [NxcCreateFolder (NEXTCLOUD_USER cfg) (NEXTCLOUD_SYNC_ROOT cfg ++ p)]
    else [DbxFilesDownloadToFile (tmp_filename p) (DROPBOX_SYNC_ROOT cfg ++ p);
          NxcUploadFile (NEXTCLOUD_USER cfg) (tmp_filename p) (NEXTCLOUD_SYNC_ROOT cfg ++ p);
          OsRemove (tmp_filename p)].
Proof.
  intros Hs.
  unfold copy_to_nxc, create_folder_nxc, download_file_dbx, upload_file_nxc, loud, tmp_filename.
  rewrite Hs. destruct (VERBOSE cfg), (is_folder p); reflexivity.
Qed.

Lemma copy_to_dbx_actions cfg p :
  SIMULATE cfg = false ->
  actions (trace (copy_to_dbx cfg p))
  = if is_folder p
    then [DbxFilesCreateFolder (DROPBOX_SYNC_ROOT cfg ++ Py.rstrip_char p "/")]
    else [NxcDownloadFile (NEXTCLOUD_USER cfg) (NEXTCLOUD_SYNC_ROOT cfg ++ p);
          DbxFilesUpload (tmp_filename p) (DROPBOX_SYNC_ROOT cfg ++ p);
          OsRemove (tmp_filename p)].
Proof.
  intros Hs.
  unfold copy_to_dbx, create_folder_dbx, download_file_nxc, upload_file_dbx, loud, tmp_filename.
  rewrite Hs. destruct (VERBOSE cfg), (is_folder p); reflexivity.
Qed.

(** C6, as the code has it.  For a key that is not the root and starts
    with no ignored prefix: in a run that does not simulate, an entry that
    exists on Dropbox only is copied to NextCloud and one that exists on
    NextCloud only is copied to Dropbox, and these are, printing apart, all
    the events of the turn: one create-folder call on the other backend for
    a folder path; for a file path a download from the backend that has it,
    an upload to the other and the removal of the local copy.  An entry on
    both backends or on neither gives no event at all, in any run.  A run of
    [apply_state] never raises and its trace is the turns' traces in the
    order of the state. *)
Theorem apply_state_seed_copies :
  forall cfg ign key value,
    is_root key = false ->
    (forall f, In f ign -> Py.startswith key f = false) ->
    (SIMULATE cfg = false ->
     existent (dbx value) = true -> existent (nxc value) = false ->
     actions (trace (apply_state_body cfg ign (key, value)))
     = (if is_folder (path value)
        then [NxcCreateFolder (NEXTCLOUD_USER cfg) (NEXTCLOUD_SYNC_ROOT cfg ++ path value)]
        else [DbxFilesDownloadToFile (tmp_filename (path value))
                (DROPBOX_SYNC_ROOT cfg ++ path value);
              NxcUploadFile (NEXTCLOUD_USER cfg) (tmp_filename (path value))
                (NEXTCLOUD_SYNC_ROOT cfg ++ path value);
              OsRemove (tmp_filename (path value))]) /\
     outcome (apply_state_body cfg ign (key, value)) = Ok tt) /\
    (SIMULATE cfg = false ->
     existent (dbx value) = false -> existent (nxc value) = true ->
     actions (trace (apply_state_body cfg ign (key, value)))
     = (if is_folder (path value)
        then [DbxFilesCreateFolder (DROPBOX_SYNC_ROOT cfg ++ Py.rstrip_char (path value) "/")]
        else [NxcDownloadFile (NEXTCLOUD_USER cfg) (NEXTCLOUD_SYNC_ROOT cfg ++ path value);
              DbxFilesUpload (tmp_filename (path value)) (DROPBOX_SYNC_ROOT cfg ++ path value);
              OsRemove (tmp_filename (path value))]) /\
     outcome (apply_state_body cfg ign (key, value)) = Ok tt) /\
    (existent (dbx value) = existent (nxc value) ->
     apply_state_body cfg ign (key, value) = ([], Ok tt)) /\
    (forall st,
        apply_state cfg st ign
        = (flat_map (fun kv => trace (apply_state_body cfg ign kv)) st, Ok tt)).
Proof.
  intros cfg ign key value Hroot Hign.
  rewrite (apply_state_body_seed cfg ign key value Hroot Hign).
  split; [|split; [|split]].
  - intros Hs Hd Hn. rewrite Hd, Hn. cbn [Bool.eqb negb].
    split; [apply copy_to_nxc_actions, Hs | apply copy_to_nxc_ok].
  - intros Hs Hd Hn. rewrite Hd, Hn. cbn [Bool.eqb negb].
    split; [apply copy_to_dbx_actions, Hs | apply copy_to_dbx_ok].
  - intros Heq. rewrite Heq, Bool.eqb_reflx. reflexivity.
  - intros st. unfold apply_state. apply for_each_all_ok.
    intros kv _. apply apply_state_body_ok.
Qed.

(** ** Dicts and the normalizer *)

Lemma get_set_same {V} (d : Py.dict V) k v : Py.get (Py.set d k v) k = Some v.
Proof.
  induction d as [|[k' v'] d IH]; cbn [Py.set Py.get].
  - now rewrite String.eqb_refl.
  - destruct (String.eqb k' k) eqn:E; cbn [Py.get]; rewrite E; [reflexivity | exact IH].
Qed.

Lemma get_set_other {V} (d : Py.dict V) k v k0 :
  k <> k0 -> Py.get (Py.set d k v) k0 = Py.get d k0.
Proof.
  intros Hne. induction d as [|[k' v'] d IH]; cbn [Py.set Py.get].
  - apply String.eqb_neq in Hne. now rewrite Hne.
  - destruct (String.eqb k' k) eqn:E; cbn [Py.get].
    + apply String.eqb_eq in E; subst k'.
      apply String.eqb_neq in Hne. now rewrite Hne.
    + destruct (String.eqb k' k0); [reflexivity | exact IH].
Qed.

Lemma In_get {V} (d : Py.dict V) k v : In (k, v) d -> exists v', Py.get d k = Some v'.
Proof.
  induction d as [|[k' v'] d IH]; intros Hin; [destruct Hin|].
  cbn [Py.get]. destruct (String.eqb k' k) eqn:E; [eauto|].
  destruct Hin as [Heq|Hin]; [|auto].
  inversion Heq; subst. rewrite String.eqb_refl in E. discriminate.
Qed.

Lemma add_missing_fold src dst : add_missing src dst = fold_left add_missing_step src dst.
Proof. reflexivity. Qed.

Lemma add_missing_step_keeps dst kv k e :
  Py.get dst k = Some e -> Py.get (add_missing_step dst kv) k = Some e.
Proof.
  destruct kv as [key value]. unfold add_missing_step, Py.contains. intros H.
  destruct (Py.get dst key) eqn:E; [exact H|].
  rewrite get_set_other; [exact H|]. intros ->. congruence.
Qed.

Lemma add_missing_step_observed dst kv k c :
  observed (add_missing_step dst kv) k c = observed dst k c.
Proof.
  destruct kv as [key value]. unfold add_missing_step, Py.contains, observed.
  destruct (Py.get dst key) eqn:E; [reflexivity|].
  destruct (String.eqb_spec key k) as [->|Hne].
  - rewrite get_set_same, E. destruct c; reflexivity.
  - rewrite get_set_other by exact Hne. reflexivity.
Qed.

Lemma add_missing_step_adds dst key value :
  exists e, Py.get (add_missing_step dst (key, value)) key = Some e.
Proof.
  unfold add_missing_step, Py.contains.
  destruct (Py.get dst key) eqn:E; [eauto|]. rewrite get_set_same. eauto.
Qed.

Lemma add_missing_keeps src dst k e :
  Py.get dst k = Some e -> Py.get (add_missing src dst) k = Some e.
Proof.
  rewrite add_missing_fold. revert dst.
  induction src as [|kv src IH]; intros dst H; [exact H|].
  cbn [fold_left]. apply IH, add_missing_step_keeps, H.
Qed.

Lemma add_missing_observed src dst k c :
  observed (add_missing src dst) k c = observed dst k c.
Proof.
  rewrite add_missing_fold. revert dst.
  induction src as [|kv src IH]; intros dst; [reflexivity|].
  cbn [fold_left]. rewrite IH. apply add_missing_step_observed.
Qed.

Lemma add_missing_covers src dst k v :
  In (k, v) src -> exists e, Py.get (add_missing src dst) k = Some e.
Proof.
  rewrite add_missing_fold. revert dst.
  induction src as [|kv src IH]; intros dst Hin; [destruct Hin|].
  cbn [fold_left]. destruct Hin as [->|Hin]; [|apply IH, Hin].
  destruct (add_missing_step_adds dst k v) as [e He].
  exists e. apply (add_missing_keeps src), He.
Qed.

(** After [normalize_states] every key of the current state is a key of the
    previous one, and neither state records anything new for any key. *)
Lemma normalize_states_spec prev curr prev' curr' :
  normalize_states prev curr = (prev', curr') ->
  (forall k v, In (k, v) curr' ->
     exists p q, Py.get prev' k = Some p /\ Py.get curr' k = Some q) /\
  (forall k c, observed prev' k c = observed prev k c) /\
  (forall k c, observed curr' k c = observed curr k c).
Proof.
  unfold normalize_states. intros H; inversion H; subst; clear H.
  repeat split.
  - intros k v Hin.
    destruct (add_missing_covers _ prev k v Hin) as [p Hp].
    destruct (In_get _ k v Hin) as [q Hq].
    exists p, q. split; assumption.
  - intros k c. apply add_missing_observed.
  - intros k c. apply add_missing_observed.
Qed.

(** ** Change Classifier *)

Lemma time_neq_refl t : time_neq t t = false.
Proof. destruct t as [s|]; cbn; [now rewrite String.eqb_refl | reflexivity]. Qed.

Lemma getitem_Ok st key e : Py.get st key = Some e -> getitem st key = Ok e.
Proof. unfold getitem. now intros ->. Qed.

Lemma getitem_inv st key e : getitem st key = Ok e -> Py.get st key = Some e.
Proof. unfold getitem. destruct (Py.get st key); intros H; inversion H; reflexivity. Qed.

(** On a key that both states hold, the four functions of the script are the
    four verdicts on the two entries. *)
Lemma classifier_on_entries key prev curr p q c :
  getitem prev key = Ok p -> getitem curr key = Ok q ->
  has_changed key prev curr c = Ok (changed_of key (cloud p c) (cloud q c)) /\
  has_been_created key prev curr c = Ok (created_of (cloud p c) (cloud q c)) /\
  has_been_changed key prev curr c = Ok (modified_of key (cloud p c) (cloud q c)) /\
  has_been_deleted key prev curr c = Ok (deleted_of (cloud p c) (cloud q c)).
Proof.
  intros Hp Hq.
  unfold has_changed, has_been_created, has_been_changed, has_been_deleted,
    changed_of, created_of, modified_of, deleted_of.
  rewrite Hp, Hq. cbn [rbind].
  repeat split.
  - destruct (negb _); [reflexivity|]. destruct (is_folder key); reflexivity.
  - destruct (existent (cloud p c)); reflexivity.
  - destruct (is_folder key); reflexivity.
  - destruct (existent (cloud p c)); reflexivity.
Qed.

Lemma has_changed_true_inv key prev curr c :
  has_changed key prev curr c = Ok true ->
  exists p q, getitem prev key = Ok p /\ getitem curr key = Ok q.
Proof.
  unfold has_changed. intros H.
  destruct (getitem prev key) as [p|]; [|discriminate].
  destruct (getitem curr key) as [q|]; [|discriminate]. eauto.
Qed.

(** C4, as the code has it.  Whenever [has_changed] is true for a backend,
    the three other functions return, at least one of created, modified and
    deleted is true, and created and deleted are never both true; but
    modified is true together with created or deleted whenever the time
    differs as well.  For a folder key modified is false, so exactly one of
    created and deleted is true. *)
Theorem classifier_verdicts :
  forall key prev curr c,
    has_changed key prev curr c = Ok true ->
    exists cr md dl,
      has_been_created key prev curr c = Ok cr /\
      has_been_changed key prev curr c = Ok md /\
      has_been_deleted key prev curr c = Ok dl /\
      cr || md || dl = true /\
      cr && dl = false /\
      (is_folder key = true -> md = false /\ exactly_one cr md dl = true).
Proof.
  intros key prev curr c H.
  destruct (has_changed_true_inv _ _ _ _ H) as (p & q & Hp & Hq).
  destruct (classifier_on_entries key prev curr p q c Hp Hq) as (Hc & Hcr & Hmd & Hdl).
  assert (Hch : changed_of key (cloud p c) (cloud q c) = true) by congruence.
  clear H.
  exists (created_of (cloud p c) (cloud q c)),
    (modified_of key (cloud p c) (cloud q c)),
    (deleted_of (cloud p c) (cloud q c)).
  do 3 (split; [assumption|]). clear Hc Hcr Hmd Hdl.
  unfold changed_of, created_of, modified_of, deleted_of, exactly_one in *.
  destruct (existent (cloud p c)), (existent (cloud q c)), (is_folder key);
    cbn in Hch |- *; try discriminate;
    (split; [rewrite ?Hch, ?orb_true_r; reflexivity|]);
    (split; [reflexivity|]);
    intros F; try discriminate F; split; reflexivity.
Qed.

(** ** Idempotence *)

Lemma for_each_nop {A} (xs : list A) (body : A -> M unit) :
  (forall x, In x xs -> body x = ret tt) -> for_each xs body = ret tt.
Proof.
  induction xs as [|x xs IH]; intros H; [reflexivity|].
  cbn [for_each]. rewrite (H x (or_introl eq_refl)), bind_ret.
  apply IH. intros y Hy. apply H. right. exact Hy.
Qed.

Lemma changed_of_same key s : changed_of key s s = false.
Proof.
  unfold changed_of. rewrite Bool.eqb_reflx, time_neq_refl.
  destruct (is_folder key); reflexivity.
Qed.

(** A key on which [has_changed] is false for both backends is passed
    over. *)
Lemma sync_state_body_unchanged cfg prev curr ign key value p q :
  getitem prev key = Ok p -> getitem curr key = Ok q ->
  (forall c, changed_of key (cloud p c) (cloud q c) = false) ->
  sync_state_body cfg prev curr ign (key, value) = ret tt.
Proof.
  intros Hp Hq Hsame. unfold sync_state_body.
  match goal with |- (if ?b then _ else _) = _ => destruct b end; [reflexivity|].
  destruct (classifier_on_entries key prev curr p q Dbx Hp Hq) as (-> & -> & -> & ->).
  destruct (classifier_on_entries key prev curr p q Nxc Hp Hq) as (-> & -> & -> & ->).
  rewrite !(Hsame Dbx), !(Hsame Nxc).
  rewrite !bind_lift_ok. cbn [orb andb negb].
  rewrite andb_false_r. cbn [when]. rewrite bind_ret. reflexivity.
Qed.

(** Nothing is done when no key has changed on either backend; the times of
    folders do not count. *)
Lemma sync_state_nothing_changed cfg prev curr ign :
  (forall key c, changed_of key (observed prev key c) (observed curr key c) = false) ->
  sync_state cfg prev curr ign = ([], Ok tt).
Proof.
  intros Hsame. unfold sync_state.
  destruct (normalize_states prev curr) as [prev' curr'] eqn:E.
  destruct (normalize_states_spec _ _ _ _ E) as (Hkeys & Hprev & Hcurr).
  apply for_each_nop. intros [k v] Hin.
  destruct (Hkeys k v Hin) as (p & q & Hp & Hq).
  apply (sync_state_body_unchanged cfg prev' curr' ign k v p q);
    [apply getitem_Ok, Hp | apply getitem_Ok, Hq |].
  intros c.
  pose proof (Hprev k c) as H1. pose proof (Hcurr k c) as H2.
  unfold observed in H1 at 1. unfold observed in H2 at 1.
  rewrite Hp in H1. rewrite Hq in H2. rewrite H1, H2. apply Hsame.
Qed.

(** C5.  When the previous and the current state record the same existence
    and the same time for every key on both backends (a key that a state
    lacks counting as absent), [sync_state] returns normally with an empty
    trace: no copy, delete, rename, download or digest, nothing printed. *)
Theorem sync_state_idempotent :
  forall cfg prev curr ign,
    (forall key c, observed prev key c = observed curr key c) ->
    sync_state cfg prev curr ign = ([], Ok tt).
Proof.
  intros cfg prev curr ign Hsame. apply sync_state_nothing_changed.
  intros key c. rewrite Hsame. apply changed_of_same.
Qed.

Lemma still_states_agree key c :
  observed Examples.still_prev key c = observed Examples.still_curr key c.
Proof.
  unfold observed, Examples.still_prev, Examples.still_curr. cbn [Py.get].
  destruct (String.eqb "a.txt" key); [destruct c; reflexivity|].
  destruct (String.eqb "docs/" key); [destruct c; reflexivity|].
  destruct (String.eqb "old.txt" key); destruct c; reflexivity.
Qed.

Lemma sync_state_idempotent_witness :
  (forall key c, observed Examples.still_prev key c = observed Examples.still_curr key c) /\
  sync_state Examples.cfg_dry Examples.still_prev Examples.still_curr ["tmp/"] = ([], Ok tt).
Proof.
  split; [exact still_states_agree|].
  exact (sync_state_idempotent Examples.cfg_dry Examples.still_prev Examples.still_curr
           ["tmp/"] still_states_agree).
Defined.

(** ** The NextCloud pass of the builder *)

Lemma keeps_dropbox_side_refl e : keeps_dropbox_side e e.
Proof. repeat split. Qed.

Lemma keeps_dropbox_side_trans e1 e2 e3 :
  keeps_dropbox_side e1 e2 -> keeps_dropbox_side e2 e3 -> keeps_dropbox_side e1 e3.
Proof.
  unfold keeps_dropbox_side. intros (A1 & A2 & A3) (B1 & B2 & B3).
  repeat split; congruence.
Qed.

Lemma setdefault_empty_keeps st key n p k e :
  Py.get st k = Some e -> Py.get (setdefault_empty st key n p) k = Some e.
Proof.
  unfold setdefault_empty, Py.contains. intros H.
  destruct (Py.get st key) eqn:E; [exact H|].
  rewrite get_set_other; [exact H|]. intros ->. congruence.
Qed.

Lemma setitem_cloud_nxc_keeps st key s k e :
  Py.get st k = Some e ->
  exists e', Py.get (setitem_cloud st key Nxc s) k = Some e' /\ keeps_dropbox_side e e'.
Proof.
  unfold setitem_cloud. intros H.
  destruct (Py.get st key) as [e0|] eqn:E.
  - destruct (String.eqb_spec key k) as [->|Hne].
    + rewrite get_set_same. assert (e0 = e) by congruence. subst e0.
      eexists. split; [reflexivity|]. repeat split.
    + rewrite get_set_other by exact Hne.
      exists e. split; [exact H | apply keeps_dropbox_side_refl].
  - exists e. split; [exact H | apply keeps_dropbox_side_refl].
Qed.

Section NextCloudPass.
Variable datetime : Type.
Variable strftime : datetime -> string -> string.
Variable strptime : string -> string -> datetime.
Variable unquote : string -> string.
Variable cfg : config.

Lemma fill_entry_nxc_keeps st entry k e :
  Py.get st k = Some e ->
  exists e', Py.get (fill_entry_nxc strftime strptime unquote cfg st entry) k = Some e'
             /\ keeps_dropbox_side e e'.
Proof.
  intros H. unfold fill_entry_nxc.
  match goal with |- context [if ?b then _ else _] => destruct b end.
  - exists e. split; [exact H | apply keeps_dropbox_side_refl].
  - apply setitem_cloud_nxc_keeps, setdefault_empty_keeps, H.
Qed.

Lemma fill_state_nxc_keeps _nxc st k e :
  Py.get st k = Some e ->
  exists e', Py.get (fill_state_nxc strftime strptime unquote cfg _nxc st) k = Some e'
             /\ keeps_dropbox_side e e'.
Proof.
  unfold fill_state_nxc. destruct (is_ok _nxc).
  - generalize (data _nxc). intros items. revert st e.
    induction items as [|it items IH]; intros st e H; cbn [fold_left].
    + exists e. split; [exact H | apply keeps_dropbox_side_refl].
    + destruct (fill_entry_nxc_keeps st it k e H) as (e1 & H1 & K1).
      destruct (IH _ e1 H1) as (e2 & H2 & K2).
      exists e2. split; [exact H2 | exact (keeps_dropbox_side_trans _ _ _ K1 K2)].
  - intros H. exists e. split; [exact H | apply keeps_dropbox_side_refl].
Qed.
End NextCloudPass.

(** Every key that the Dropbox pass has put into the state is still there
    when [get_state] returns, and its entry has the name, the path and the
    Dropbox existence and time that the Dropbox pass recorded: the
    NextCloud pass leaves these alone, whatever NextCloud lists for the key
    and under whatever casing. *)
Theorem get_state_keeps_dropbox_fields :
  forall (datetime : Type) (strftime : datetime -> string -> string)
         (strptime : string -> string -> datetime) (unquote : string -> string)
         cfg _dbx _nxc key e,
    Py.get (fill_state_dbx strftime cfg _dbx []) key = Some e ->
    exists e',
      Py.get (get_state strftime strptime unquote cfg _dbx _nxc) key = Some e' /\
      name e' = name e /\ path e' = path e /\ dbx e' = dbx e.
Proof.
  intros datetime strftime strptime unquote cfg _dbx _nxc key e H.
  unfold get_state.
  destruct (fill_state_nxc_keeps datetime strftime strptime unquote cfg _nxc _ key e H)
    as (e' & He' & K).
  exists e'. split; [exact He' | exact K].
Qed.

Lemma get_state_keeps_dropbox_fields_witness :
  Py.get (fill_state_dbx Examples.strftime_text Examples.cfg_run Examples.two_pages [])
         "docs/report.txt"
  = Some {| dbx := Examples.present "20191031090000"; nxc := Examples.absent;
            name := "Report.TXT"; path := "Docs/Report.TXT" |} /\
  exists e',
    Py.get (get_state Examples.strftime_text Examples.strptime_text Examples.unquote_plain
              Examples.cfg_run Examples.two_pages Examples.nxc_listing) "docs/report.txt"
    = Some e' /\
    name e' = "Report.TXT" /\ path e' = "Docs/Report.TXT" /\
    dbx e' = Examples.present "20191031090000".
Proof.
  split; [reflexivity|].
  apply (get_state_keeps_dropbox_fields string Examples.strftime_text Examples.strptime_text
           Examples.unquote_plain Examples.cfg_run Examples.two_pages Examples.nxc_listing
           "docs/report.txt"
           {| dbx := Examples.present "20191031090000"; nxc := Examples.absent;
              name := "Report.TXT"; path := "Docs/Report.TXT" |}).
  reflexivity.
Defined.

(** ** What the loop of [sync_state] does on a key both states hold *)

(** The decision part of [sync_state_body], on the eight verdicts. *)
Lemma sync_state_body_on_entries cfg prev curr ign key value p q :
  is_root key = false ->
  (forall f, In f ign -> Py.startswith key f = false) ->
  getitem prev key = Ok p -> getitem curr key = Ok q ->
  loud cfg = false ->
  sync_state_body cfg prev curr ign (key, value) =
    let path := path value in
    let has_changed_dbx := changed_of key (dbx p) (dbx q) in
    let has_changed_nxc := changed_of key (nxc p) (nxc q) in
    if has_changed_dbx && negb has_changed_nxc then
      if created_of (dbx p) (dbx q) then copy_to_nxc cfg path
      else if deleted_of (dbx p) (dbx q) then delete_on_nxc cfg path
      else if modified_of key (dbx p) (dbx q) then copy_to_nxc cfg path
      else ret tt
    else if negb has_changed_dbx && has_changed_nxc then
      if created_of (nxc p) (nxc q) then copy_to_dbx cfg path
      else if deleted_of (nxc p) (nxc q) then delete_on_dbx cfg path
      else if modified_of key (nxc p) (nxc q) then copy_to_dbx cfg path
      else ret tt
    else if has_changed_dbx && has_changed_nxc then
      if created_of (dbx p) (dbx q) && created_of (nxc p) (nxc q)
      then resolve_conflict cfg path value
      else if modified_of key (dbx p) (dbx q) && deleted_of (nxc p) (nxc q)
      then copy_to_nxc cfg path
      else if deleted_of (dbx p) (dbx q) && modified_of key (nxc p) (nxc q)
      then copy_to_dbx cfg path
      else if modified_of key (dbx p) (dbx q) && modified_of key (nxc p) (nxc q)
      then resolve_conflict cfg path value
      else ret tt
    else ret tt.
Proof.
  intros Hroot Hign Hp Hq Hloud. unfold sync_state_body.
  unfold is_root in Hroot. rewrite Hroot, (ignore_loop_clear key ign Hign).
  destruct (classifier_on_entries key prev curr p q Dbx Hp Hq) as (-> & -> & -> & ->).
  destruct (classifier_on_entries key prev curr p q Nxc Hp Hq) as (-> & -> & -> & ->).
  rewrite !bind_lift_ok, Hloud. cbn [andb when cloud]. rewrite bind_ret. reflexivity.
Qed.

(** The conflict branch never gets past its first download: the argument
    of [get_hash] is an unbound name. *)
Lemma resolve_conflict_raises cfg p v :
  resolve_conflict cfg p v
  = (trace (download_file_dbx cfg p), Raise (NameError "_local_filepath")).
Proof.
  unfold resolve_conflict, get_hash_dbx, download_file_dbx.
  destruct (loud cfg); reflexivity.
Qed.

(** A folder made on one backend only, with no earlier existence: the
    folder is made on the other backend and nothing else is done. *)
Lemma sync_state_body_folder_created_one_side cfg prev curr ign key value p q :
  is_root key = false ->
  (forall f, In f ign -> Py.startswith key f = false) ->
  getitem prev key = Ok p -> getitem curr key = Ok q ->
  SIMULATE cfg = false -> VERBOSE cfg = false ->
  is_folder key = true -> is_folder (path value) = true ->
  existent (dbx p) = false -> existent (nxc p) = false ->
  (existent (dbx q) = true -> existent (nxc q) = false ->
   sync_state_body cfg prev curr ign (key, value)
   = ([NxcCreateFolder (NEXTCLOUD_USER cfg) (NEXTCLOUD_SYNC_ROOT cfg ++ path value)], Ok tt)) /\
  (existent (dbx q) = false -> existent (nxc q) = true ->
   sync_state_body cfg prev curr ign (key, value)
   = ([DbxFilesCreateFolder (DROPBOX_SYNC_ROOT cfg ++ Py.rstrip_char (path value) "/")], Ok tt)).
Proof.
  intros Hroot Hign Hp Hq Hs Hv Hk Hpath Hd Hn.
  assert (Hloud : loud cfg = false) by (unfold loud; now rewrite Hs, Hv).
  rewrite (sync_state_body_on_entries cfg prev curr ign key value p q Hroot Hign Hp Hq Hloud).
  unfold changed_of, created_of, deleted_of, modified_of.
  rewrite Hk, Hd, Hn.
  split; intros Hd' Hn'; rewrite Hd', Hn'; cbn [negb Bool.eqb andb];
    [unfold copy_to_nxc, create_folder_nxc | unfold copy_to_dbx, create_folder_dbx];
    rewrite Hpath, Hloud, Hs; reflexivity.
Qed.

(** A folder that both backends lost: only printing, if anything. *)
Lemma sync_state_body_folder_deleted_on_both cfg prev curr ign key value p q :
  getitem prev key = Ok p -> getitem curr key = Ok q ->
  is_folder key = true ->
  existent (dbx p) = true -> existent (nxc p) = true ->
  existent (dbx q) = false -> existent (nxc q) = false ->
  Forall (fun ev => is_print ev = true)
         (trace (sync_state_body cfg prev curr ign (key, value))) /\
  outcome (sync_state_body cfg prev curr ign (key, value)) = Ok tt.
Proof.
  intros Hp Hq Hk Hd Hn Hd' Hn'. unfold sync_state_body.
  match goal with |- context [if ?b then _ else _] => destruct b end;
    [split; [constructor | reflexivity]|].
  destruct (classifier_on_entries key prev curr p q Dbx Hp Hq) as (-> & -> & -> & ->).
  destruct (classifier_on_entries key prev curr p q Nxc Hp Hq) as (-> & -> & -> & ->).
  unfold changed_of, created_of, deleted_of, modified_of. cbn [cloud].
  rewrite Hk, Hd, Hn, Hd', Hn'. rewrite !bind_lift_ok.
  destruct (loud cfg); cbn; split; try reflexivity; repeat constructor.
Qed.

(** A file that both backends lost, as [get_state] and [normalize_states]
    leave it (a time before, none now): the loop takes the branch
    "changed on Dropbox, deleted on NextCloud" and copies to NextCloud. *)
Lemma sync_state_body_file_deleted_on_both cfg prev curr ign key value p q t :
  is_root key = false ->
  (forall f, In f ign -> Py.startswith key f = false) ->
  getitem prev key = Ok p -> getitem curr key = Ok q ->
  loud cfg = false ->
  is_folder key = false ->
  dbx p = {| existent := true; time := Some t |} -> existent (nxc p) = true ->
  dbx q = {| existent := false; time := None |} -> existent (nxc q) = false ->
  sync_state_body cfg prev curr ign (key, value) = copy_to_nxc cfg (path value).
Proof.
  intros Hroot Hign Hp Hq Hloud Hk Hd Hn Hd' Hn'.
  rewrite (sync_state_body_on_entries cfg prev curr ign key value p q Hroot Hign Hp Hq Hloud).
  unfold changed_of, created_of, deleted_of, modified_of.
  rewrite Hk, Hd, Hn, Hd', Hn'. reflexivity.
Qed.

(** ** Witnesses of the dry run, the root, the seed mode and the classifier *)

Lemma simulate_never_mutates_witness :
  SIMULATE Examples.cfg_dry = true /\
  quiet (sync_state Examples.cfg_dry Examples.fresh_prev Examples.fresh_curr ["tmp/"]) /\
  quiet (apply_state Examples.cfg_dry Examples.seed_state ["tmp/"]).
Proof.
  pose proof (simulate_never_mutates Examples.cfg_dry Examples.fresh_prev Examples.fresh_curr
                Examples.seed_state ["tmp/"] eq_refl) as H.
  split; [reflexivity|]. split; [exact (proj1 H) | exact (proj1 (proj2 H))].
Defined.

Lemma root_never_reconciled_witness :
  ("/" = "" \/ "/" = "/") /\
  sync_state_body Examples.cfg_run Examples.seed_state Examples.seed_state []
    ("/", {| dbx := Examples.absent; nxc := Examples.present "20191030000000";
             name := ""; path := "/" |}) = ([], Ok tt) /\
  apply_state_body Examples.cfg_run []
    ("/", {| dbx := Examples.absent; nxc := Examples.present "20191030000000";
             name := ""; path := "/" |}) = ([], Ok tt).
Proof.
  pose proof (root_never_reconciled Examples.cfg_run Examples.seed_state Examples.seed_state
                Examples.seed_state [] "/"
                {| dbx := Examples.absent; nxc := Examples.present "20191030000000";
                   name := ""; path := "/" |} (or_intror eq_refl)) as H.
  split; [right; reflexivity|]. split; [exact (proj1 H) | exact (proj1 (proj2 H))].
Defined.

Lemma no_tmp_prefix :
  forall f, In f ["tmp/"] -> Py.startswith "docs/" f = false.
Proof. intros f [<-|[]]. reflexivity. Qed.

Lemma apply_state_seed_copies_witness :
  is_root "docs/" = false /\
  (forall f, In f ["tmp/"] -> Py.startswith "docs/" f = false) /\
  SIMULATE More.cfg_verbose = false /\
  actions (trace (apply_state_body More.cfg_verbose ["tmp/"]
                    ("docs/", {| dbx := Examples.present "20191101120000";
                                 nxc := Examples.absent;
                                 name := "Docs"; path := "Docs/" |})))
  = [NxcCreateFolder "alice" "/Docs/"].
Proof.
  split; [reflexivity|]. split; [exact no_tmp_prefix|]. split; [reflexivity|].
  exact (proj1 (proj1 (apply_state_seed_copies More.cfg_verbose ["tmp/"] "docs/"
                         {| dbx := Examples.present "20191101120000"; nxc := Examples.absent;
                            name := "Docs"; path := "Docs/" |} eq_refl no_tmp_prefix)
                  eq_refl eq_refl eq_refl)).
Defined.

(** C6, as the claim words it, fails in a run that simulates: the folder
    that exists on Dropbox only is announced and not made on NextCloud. *)
Lemma apply_state_seed_counterexample :
  ~ (forall cfg ign key value,
        is_root key = false ->
        (forall f, In f ign -> Py.startswith key f = false) ->
        existent (dbx value) = true -> existent (nxc value) = false ->
        copied_to_nxc cfg (path value) (trace (apply_state_body cfg ign (key, value)))).
Proof.
  intros H.
  specialize (H Examples.cfg_dry ["tmp/"] "docs/"
                {| dbx := Examples.present "20191101120000"; nxc := Examples.absent;
                   name := "Docs"; path := "Docs/" |} eq_refl no_tmp_prefix eq_refl eq_refl).
  cbv in H. destruct H as [H|[H|[]]]; discriminate H.
Qed.

(** The same turn in the simulating run: two lines are printed. *)
Example seed_dry_run_example :
  apply_state_body Examples.cfg_dry ["tmp/"]
    ("docs/", {| dbx := Examples.present "20191101120000"; nxc := Examples.absent;
                 name := "Docs"; path := "Docs/" |})
  = ([Print "copy_to_nxc(Docs/)"; Print "create_folder_nxc(/Docs/)"], Ok tt).
Proof. reflexivity. Qed.

(** The seed run of the example: the folder goes to NextCloud, the file to
    Dropbox, the root and the file on both sides are left alone. *)
Example seed_run_example :
  apply_state Examples.cfg_run Examples.seed_state ["tmp/"]
  = ([NxcCreateFolder "alice" "/Docs/";
      NxcDownloadFile "alice" "/docs/b.txt";
      DbxFilesUpload "b.txt" "/docs/b.txt";
      OsRemove "b.txt"], Ok tt).
Proof. reflexivity. Qed.

Lemma classifier_verdicts_witness :
  has_changed "a.txt" [("a.txt", get_empty_state_entry "a.txt" "a.txt")]
    Examples.fresh_curr Dbx = Ok true /\
  exists cr md dl,
    has_been_created "a.txt" [("a.txt", get_empty_state_entry "a.txt" "a.txt")]
      Examples.fresh_curr Dbx = Ok cr /\
    has_been_changed "a.txt" [("a.txt", get_empty_state_entry "a.txt" "a.txt")]
      Examples.fresh_curr Dbx = Ok md /\
    has_been_deleted "a.txt" [("a.txt", get_empty_state_entry "a.txt" "a.txt")]
      Examples.fresh_curr Dbx = Ok dl /\
    cr || md || dl = true /\
    cr && dl = false /\
    (is_folder "a.txt" = true -> md = false /\ exactly_one cr md dl = true).
Proof.
  split; [reflexivity|].
  exact (classifier_verdicts "a.txt" [("a.txt", get_empty_state_entry "a.txt" "a.txt")]
           Examples.fresh_curr Dbx eq_refl).
Defined.

(** C4, as the claim words it, fails: for a file that is new on Dropbox the
    classifier says changed, created and modified at once, since the time
    went from none to a value. *)
Lemma classifier_exactly_one_counterexample :
  ~ (forall key prev curr c cr md dl,
        has_changed key prev curr c = Ok true ->
        has_been_created key prev curr c = Ok cr ->
        has_been_changed key prev curr c = Ok md ->
        has_been_deleted key prev curr c = Ok dl ->
        exactly_one cr md dl = true).
Proof.
  intros H.
  specialize (H "a.txt" [("a.txt", get_empty_state_entry "a.txt" "a.txt")]
                Examples.fresh_curr Dbx true true false eq_refl eq_refl eq_refl eq_refl).
  discriminate H.
Qed.

(** The same overlap on the other side: a file that Dropbox lost counts as
    deleted and as modified. *)
Example classifier_deleted_and_modified :
  let prev := fst (normalize_states Examples.gone_prev Examples.gone_curr) in
  let curr := snd (normalize_states Examples.gone_prev Examples.gone_curr) in
  has_changed "a.txt" prev curr Dbx = Ok true /\
  has_been_created "a.txt" prev curr Dbx = Ok false /\
  has_been_changed "a.txt" prev curr Dbx = Ok true /\
  has_been_deleted "a.txt" prev curr Dbx = Ok true.
Proof. repeat split. Qed.

(** ** Where the script falls short of its description *)

(** C1.  The entries of the first page of a Dropbox listing never reach the
    state: a listing that fits in one page gives the empty state, and of a
    listing of two pages only the second page is recorded. *)
Theorem fill_state_dbx_drops_first_page :
  has_more (files_list_folder Examples.one_page) = false /\
  fill_state_dbx Examples.strftime_text Examples.cfg_run Examples.one_page [] = [] /\
  get_state Examples.strftime_text Examples.strptime_text Examples.unquote_plain
    Examples.cfg_run Examples.one_page {| is_ok := true; data := [] |} = [] /\
  Py.keys (fill_state_dbx Examples.strftime_text Examples.cfg_run Examples.two_pages [])
  = ["docs/"; "docs/report.txt"].
Proof. repeat split. Qed.

(** Whatever the first page holds, the state is that of a listing whose
    first page is empty. *)
Lemma fill_state_dbx_ignores_first_page
    (datetime : Type) (strftime : datetime -> string -> string) cfg first rest st :
  fill_state_dbx strftime cfg {| files_list_folder := {| entries := first; cursor := rest |} |} st
  = fill_state_dbx strftime cfg {| files_list_folder := {| entries := []; cursor := rest |} |} st.
Proof. reflexivity. Qed.

(** C10.  A file that Dropbox lists on its first page and NextCloud lists
    too: the Dropbox pass never records it, so the entry is made by the
    NextCloud pass and has NextCloud's name and path, in NextCloud's
    casing, and is absent on Dropbox.  The file of the second page keeps
    the name and path Dropbox gave it. *)
Theorem get_state_first_page_key_has_nextcloud_name :
  get_state Examples.strftime_text Examples.strptime_text Examples.unquote_plain
    Examples.cfg_run More.report_on_first_page More.nxc_report_and_b
  = [("b.txt", {| dbx := Examples.present "20191030101500";
                  nxc := Examples.present "20191030101501";
                  name := "B.txt"; path := "B.txt" |});
     ("report.txt", {| dbx := Examples.absent;
                       nxc := Examples.present "20191031170500";
                       name := "report.txt"; path := "report.txt" |})].
Proof. reflexivity. Qed.

(** C2.  A file that was on both backends and is now on neither: the run
    downloads it from Dropbox and uploads it to NextCloud. *)
Theorem sync_state_file_deleted_on_both :
  sync_state Examples.cfg_run Examples.gone_prev Examples.gone_curr []
  = ([DbxFilesDownloadToFile "a.txt" "/a.txt";
      NxcUploadFile "alice" "a.txt" "/a.txt";
      OsRemove "a.txt"], Ok tt).
Proof. reflexivity. Qed.

(** C3.  A file edited on both backends: the run downloads the Dropbox
    version and stops with a [NameError]; no digest is computed, nothing is
    renamed and nothing is copied. *)
Theorem sync_state_conflict_raises :
  sync_state Examples.cfg_run Examples.edited_prev Examples.edited_curr []
  = ([DbxFilesDownloadToFile "a.txt" "/a.txt"], Raise (NameError "_local_filepath")).
Proof. reflexivity. Qed.

(** C8.  A folder made on both backends since the last run is sent into the
    digest step: the run asks Dropbox to download the folder and stops with
    a [NameError]. *)
Theorem sync_state_folder_created_on_both :
  is_folder "docs/" = true /\
  sync_state Examples.cfg_run Examples.folder_prev Examples.folder_curr []
  = ([DbxFilesDownloadToFile "" "/Docs/"], Raise (NameError "_local_filepath")).
Proof. split; reflexivity. Qed.

(** ** What the Dropbox pass does record *)

Lemma setitem_cloud_get st key c s k e :
  Py.get st k = Some e ->
  Py.get (setitem_cloud st key c s) k = Some (if String.eqb key k then set_cloud e c s else e).
Proof.
  unfold setitem_cloud. intros H.
  destruct (String.eqb_spec key k) as [->|Hne].
  - rewrite H. apply get_set_same.
  - destruct (Py.get st key); [|exact H].
    rewrite get_set_other by exact Hne. exact H.
Qed.

Lemma setdefault_empty_has st key n p : exists e, Py.get (setdefault_empty st key n p) key = Some e.
Proof.
  unfold setdefault_empty, Py.contains.
  destruct (Py.get st key) eqn:E; [eauto|]. rewrite get_set_same. eauto.
Qed.

Section DropboxPass.
Variable datetime : Type.
Variable strftime : datetime -> string -> string.
Variable cfg : config.

Lemma fill_entry_dbx_records st entry k :
  dbx_key cfg entry = Some k -> on_dropbox (fill_entry_dbx strftime cfg st entry) k.
Proof.
  unfold on_dropbox.
  destruct entry as [n pl pd|n pl pd cm|n pl pd]; cbn [dbx_key fill_entry_dbx];
    intros Hk; inversion Hk; subst k; clear Hk.
  - destruct (setdefault_empty_has st (Py.slice_from (String.length (DROPBOX_SYNC_ROOT cfg)) pl ++ "/")
                n (Py.slice_from (String.length (DROPBOX_SYNC_ROOT cfg)) (pd ++ "/"))) as [e0 He0].
    rewrite (setitem_cloud_get _ _ _ _ _ _ He0), String.eqb_refl. eexists; split; reflexivity.
  - destruct (setdefault_empty_has st (Py.slice_from (String.length (DROPBOX_SYNC_ROOT cfg)) pl)
                n (Py.slice_from (String.length (DROPBOX_SYNC_ROOT cfg)) pd)) as [e0 He0].
    rewrite (setitem_cloud_get _ _ _ _ _ _ He0), String.eqb_refl. eexists; split; reflexivity.
Qed.

Lemma fill_entry_dbx_keeps st entry k :
  on_dropbox st k -> on_dropbox (fill_entry_dbx strftime cfg st entry) k.
Proof.
  unfold on_dropbox. intros (e & He & Hex).
  destruct entry as [n pl pd|n pl pd cm|n pl pd]; cbn [fill_entry_dbx]; [| |eauto].
  - rewrite (setitem_cloud_get _ _ _ _ _ _ (setdefault_empty_keeps _ _ _ _ _ _ He)).
    eexists; split; [reflexivity|]. destruct (String.eqb _ k); [reflexivity | exact Hex].
  - rewrite (setitem_cloud_get _ _ _ _ _ _ (setdefault_empty_keeps _ _ _ _ _ _ He)).
    eexists; split; [reflexivity|]. destruct (String.eqb _ k); [reflexivity | exact Hex].
Qed.

Lemma fill_page_keeps page st k :
  on_dropbox st k -> on_dropbox (fold_left (fill_entry_dbx strftime cfg) page st) k.
Proof.
  revert st. induction page as [|en page IH]; intros st H; [exact H|].
  cbn [fold_left]. apply IH, fill_entry_dbx_keeps, H.
Qed.

Lemma fill_page_records page st entry k :
  In entry page -> dbx_key cfg entry = Some k ->
  on_dropbox (fold_left (fill_entry_dbx strftime cfg) page st) k.
Proof.
  revert st. induction page as [|en page IH]; intros st Hin Hk; [destruct Hin|].
  cbn [fold_left]. destruct Hin as [->|Hin].
  - apply fill_page_keeps, fill_entry_dbx_records, Hk.
  - apply IH; assumption.
Qed.

Lemma fill_state_dbx_while_keeps pending st k :
  on_dropbox st k -> on_dropbox (fill_state_dbx_while strftime cfg pending st) k.
Proof.
  revert st. induction pending as [|page pending IH]; intros st H; [exact H|].
  cbn [fill_state_dbx_while]. apply IH, fill_page_keeps, H.
Qed.

(** Every file and folder on a page after the first is in the state, as
    existing on Dropbox. *)
Lemma fill_state_dbx_records_later_pages _dbx st page entry k :
  In page (cursor (files_list_folder _dbx)) -> In entry page ->
  dbx_key cfg entry = Some k ->
  on_dropbox (fill_state_dbx strftime cfg _dbx st) k.
Proof.
  unfold fill_state_dbx. generalize (cursor (files_list_folder _dbx)). intros pending.
  revert st. induction pending as [|pg pending IH]; intros st Hpage Hin Hk; [destruct Hpage|].
  cbn [fill_state_dbx_while]. destruct Hpage as [->|Hpage].
  - apply fill_state_dbx_while_keeps, (fill_page_records _ _ entry); assumption.
  - apply IH; assumption.
Qed.
End DropboxPass.

(** A listing that fits in one page leaves the state as it was. *)
Lemma fill_state_dbx_single_page
    (datetime : Type) (strftime : datetime -> string -> string) cfg _dbx st :
  has_more (files_list_folder _dbx) = false ->
  fill_state_dbx strftime cfg _dbx st = st.
Proof.
  unfold has_more, fill_state_dbx.
  destruct (cursor (files_list_folder _dbx)); [reflexivity | discriminate].
Qed.

(** ** What the NextCloud pass does record *)

Section NextCloudRecords.
Variable datetime : Type.
Variable strftime : datetime -> string -> string.
Variable strptime : string -> string -> datetime.
Variable unquote : string -> string.
Variable cfg : config.

Lemma fill_entry_nxc_records st item :
  nxc_key unquote cfg item <> "" ->
  on_nextcloud (fill_entry_nxc strftime strptime unquote cfg st item) (nxc_key unquote cfg item).
Proof.
  unfold on_nextcloud, nxc_key, fill_entry_nxc. intros Hne.
  apply String.eqb_neq in Hne. rewrite Hne.
  match goal with
  | |- context [setdefault_empty st ?k ?n ?p] =>
      destruct (setdefault_empty_has st k n p) as [e0 He0]
  end.
  rewrite (setitem_cloud_get _ _ _ _ _ _ He0), String.eqb_refl.
  eexists; split; reflexivity.
Qed.

Lemma fill_entry_nxc_keeps_nxc st item k :
  on_nextcloud st k -> on_nextcloud (fill_entry_nxc strftime strptime unquote cfg st item) k.
Proof.
  unfold on_nextcloud, fill_entry_nxc. intros (e & He & Hex).
  match goal with |- context [if ?b then _ else _] => destruct b end; [eauto|].
  rewrite (setitem_cloud_get _ _ _ _ _ _ (setdefault_empty_keeps _ _ _ _ _ _ He)).
  eexists; split; [reflexivity|]. destruct (String.eqb _ k); [reflexivity | exact Hex].
Qed.

(** Every item of an accepted listing, the root apart, is in the state as
    existing on NextCloud. *)
Lemma fill_state_nxc_records _nxc st item :
  is_ok _nxc = true -> In item (data _nxc) -> nxc_key unquote cfg item <> "" ->
  on_nextcloud (fill_state_nxc strftime strptime unquote cfg _nxc st) (nxc_key unquote cfg item).
Proof.
  unfold fill_state_nxc. intros -> Hin Hne. revert st Hin.
  generalize (data _nxc). intros items.
  induction items as [|it items IH]; intros st Hin; [destruct Hin|].
  cbn [fold_left]. destruct Hin as [->|Hin]; [|apply IH, Hin].
  generalize (fill_entry_nxc_records st item Hne).
  generalize (fill_entry_nxc strftime strptime unquote cfg st item). clear IH.
  induction items as [|it items IH]; intros st' H; [exact H|].
  cbn [fold_left]. apply IH, fill_entry_nxc_keeps_nxc, H.
Qed.
End NextCloudRecords.

(** * Further properties of the script *)

(** ** The normalizer *)

Lemma contains_existsb {V} (d : Py.dict V) k :
  Py.contains d k = existsb (fun kv => String.eqb (fst kv) k) d.
Proof.
  unfold Py.contains. induction d as [|[k' v] d IH]; [reflexivity|].
  cbn [Py.get existsb fst]. destruct (String.eqb k' k); [reflexivity | exact IH].
Qed.

Lemma In_contains {V} (d : Py.dict V) k v : In (k, v) d -> Py.contains d k = true.
Proof.
  intros Hin. unfold Py.contains. destruct (In_get d k v Hin) as [v' ->]. reflexivity.
Qed.

Lemma set_absent {V} (d : Py.dict V) k v :
  Py.get d k = None -> Py.set d k v = (d ++ [(k, v)])%list.
Proof.
  induction d as [|[k' v'] d IH]; intros H; [reflexivity|].
  cbn [Py.get] in H. cbn [Py.set app].
  destruct (String.eqb k' k); [discriminate|]. now rewrite IH.
Qed.

Lemma add_missing_step_contains dst key value k :
  Py.contains (add_missing_step dst (key, value)) k = Py.contains dst k || String.eqb key k.
Proof.
  unfold add_missing_step. destruct (Py.contains dst key) eqn:E.
  - destruct (String.eqb_spec key k) as [->|_]; [|now rewrite orb_false_r].
    now rewrite E.
  - unfold Py.contains in *. destruct (String.eqb_spec key k) as [->|Hne].
    + rewrite get_set_same. now rewrite orb_true_r.
    + rewrite get_set_other by exact Hne. now rewrite orb_false_r.
Qed.

Lemma add_missing_contains src dst k :
  Py.contains (add_missing src dst) k = Py.contains dst k || Py.contains src k.
Proof.
  rewrite (contains_existsb src). unfold add_missing. revert dst.
  induction src as [|[key value] src IH]; intros dst; cbn [fold_left existsb fst].
  - now rewrite orb_false_r.
  - rewrite IH, add_missing_step_contains. now rewrite orb_assoc.
Qed.

Lemma add_missing_extends src dst :
  exists extra,
    add_missing src dst = (dst ++ extra)%list /\ Forall (empty_copy_from src) extra.
Proof.
  unfold add_missing. revert dst.
  induction src as [|[key value] src IH]; intros dst; cbn [fold_left].
  - exists []. split; [now rewrite app_nil_r | constructor].
  - destruct (IH (add_missing_step dst (key, value))) as (extra & Heq & Hall).
    assert (Hweak : Forall (empty_copy_from ((key, value) :: src)) extra).
    { eapply Forall_impl; [|exact Hall].
      intros kv (v & Hin & Hv). exists v. split; [right; exact Hin | exact Hv]. }
    unfold add_missing_step in Heq |- *. unfold Py.contains in Heq |- *.
    destruct (Py.get dst key) eqn:E.
    + exists extra. split; assumption.
    + rewrite (set_absent _ _ _ E) in Heq |- *.
      exists ((key, get_empty_state_entry (name value) (path value)) :: extra).
      split; [rewrite Heq, <- app_assoc; reflexivity|].
      constructor; [|exact Hweak].
      exists value. split; [left; reflexivity | reflexivity].
Qed.

Lemma add_missing_noop src dst :
  (forall k v, In (k, v) src -> Py.contains dst k = true) -> add_missing src dst = dst.
Proof.
  unfold add_missing. induction src as [|[key value] src IH]; intros H; [reflexivity|].
  cbn [fold_left]. unfold add_missing_step at 2.
  rewrite (H key value (or_introl eq_refl)).
  apply IH. intros k v Hin. apply (H k v). right. exact Hin.
Qed.

(** X1.  After [normalize_states] the two states have the same keys: a key
    is in the one exactly when it is in the other, and every key either
    state had before is in both. *)
Theorem normalize_states_same_keys :
  forall a b a' b',
    normalize_states a b = (a', b') ->
    forall key,
      Py.contains a' key = Py.contains b' key /\
      Py.contains a' key = Py.contains a key || Py.contains b key.
Proof.
  intros a b a' b' H key. unfold normalize_states in H.
  inversion H; subst; clear H.
  rewrite !add_missing_contains.
  destruct (Py.contains a key), (Py.contains b key); split; reflexivity.
Qed.

Lemma normalize_states_same_keys_witness :
  normalize_states More.prev_a More.curr_b
  = ([("a.txt", More.both "a.txt" "a.txt" "20191030101500" "20191030101501");
      ("docs/", More.neither "docs" "docs/")],
     [("docs/", More.nxc_only "docs" "docs/" "20191031170000");
      ("a.txt", More.neither "a.txt" "a.txt")]) /\
  forall key,
    Py.contains [("a.txt", More.both "a.txt" "a.txt" "20191030101500" "20191030101501");
                 ("docs/", More.neither "docs" "docs/")] key
    = Py.contains [("docs/", More.nxc_only "docs" "docs/" "20191031170000");
                   ("a.txt", More.neither "a.txt" "a.txt")] key /\
    Py.contains [("a.txt", More.both "a.txt" "a.txt" "20191030101500" "20191030101501");
                 ("docs/", More.neither "docs" "docs/")] key
    = Py.contains More.prev_a key || Py.contains More.curr_b key.
Proof.
  split; [reflexivity|].
  exact (normalize_states_same_keys More.prev_a More.curr_b _ _ eq_refl).
Defined.

(** X2.  [normalize_states] only adds: each state keeps its entries, in
    their order and unchanged, and what is appended to it are empty entries
    (absent on both backends, no time) that carry the name and the path of
    the other state's entry for that key. *)
Theorem normalize_states_only_appends :
  forall a b a' b',
    normalize_states a b = (a', b') ->
    exists extra_a extra_b,
      a' = (a ++ extra_a)%list /\ b' = (b ++ extra_b)%list /\
      Forall (empty_copy_from b') extra_a /\ Forall (empty_copy_from a) extra_b.
Proof.
  intros a b a' b' H. unfold normalize_states in H. inversion H; subst; clear H.
  destruct (add_missing_extends a b) as (xb & Hb & Hxb).
  destruct (add_missing_extends (add_missing a b) a) as (xa & Ha & Hxa).
  exists xa, xb. repeat split; assumption.
Qed.

Lemma normalize_states_only_appends_witness :
  normalize_states More.prev_a More.curr_b
  = ((More.prev_a ++ [("docs/", More.neither "docs" "docs/")])%list,
     (More.curr_b ++ [("a.txt", More.neither "a.txt" "a.txt")])%list) /\
  exists extra_a extra_b,
    (More.prev_a ++ [("docs/", More.neither "docs" "docs/")])%list
    = (More.prev_a ++ extra_a)%list /\
    (More.curr_b ++ [("a.txt", More.neither "a.txt" "a.txt")])%list
    = (More.curr_b ++ extra_b)%list /\
    Forall (empty_copy_from (More.curr_b ++ [("a.txt", More.neither "a.txt" "a.txt")])%list)
           extra_a /\
    Forall (empty_copy_from More.prev_a) extra_b.
Proof.
  split; [reflexivity|].
  exact (normalize_states_only_appends More.prev_a More.curr_b _ _ eq_refl).
Defined.

(** X3.  Normalizing twice is normalizing once: on two states that
    [normalize_states] has returned it changes nothing. *)
Theorem normalize_states_idempotent :
  forall a b a' b',
    normalize_states a b = (a', b') ->
    normalize_states a' b' = (a', b').
Proof.
  intros a b a' b' H.
  assert (Hkeys : forall key, Py.contains a' key = Py.contains b' key).
  { intros key. unfold normalize_states in H. inversion H; subst.
    rewrite !add_missing_contains.
    destruct (Py.contains a key), (Py.contains b key); reflexivity. }
  unfold normalize_states.
  assert (Hb : add_missing a' b' = b').
  { apply add_missing_noop. intros k v Hin.
    rewrite <- Hkeys. exact (In_contains _ _ _ Hin). }
  rewrite Hb.
  assert (Ha : add_missing b' a' = a').
  { apply add_missing_noop. intros k v Hin.
    rewrite Hkeys. exact (In_contains _ _ _ Hin). }
  now rewrite Ha.
Qed.

Lemma normalize_states_idempotent_witness :
  normalize_states More.prev_a More.curr_b
  = ((More.prev_a ++ [("docs/", More.neither "docs" "docs/")])%list,
     (More.curr_b ++ [("a.txt", More.neither "a.txt" "a.txt")])%list) /\
  normalize_states (More.prev_a ++ [("docs/", More.neither "docs" "docs/")])%list
                   (More.curr_b ++ [("a.txt", More.neither "a.txt" "a.txt")])%list
  = ((More.prev_a ++ [("docs/", More.neither "docs" "docs/")])%list,
     (More.curr_b ++ [("a.txt", More.neither "a.txt" "a.txt")])%list).
Proof.
  split; [reflexivity|].
  exact (normalize_states_idempotent More.prev_a More.curr_b _ _ eq_refl).
Defined.

(** ** The classifier on a missing key *)

(** X4.  On a key that the previous state lacks, [has_changed],
    [has_been_created] and [has_been_deleted] raise [KeyError] for that key;
    [has_been_changed] raises it too for a file key, but answers [False]
    for a folder key without looking at either state. *)
Theorem classifier_missing_key :
  forall key prev curr c,
    Py.get prev key = None ->
    has_changed key prev curr c = Raise (KeyError key) /\
    has_been_created key prev curr c = Raise (KeyError key) /\
    has_been_deleted key prev curr c = Raise (KeyError key) /\
    has_been_changed key prev curr c
    = if is_folder key then Ok false else Raise (KeyError key).
Proof.
  intros key prev curr c H.
  unfold has_changed, has_been_created, has_been_deleted, has_been_changed, getitem.
  rewrite H. cbn [rbind]. repeat split; reflexivity.
Qed.

Lemma classifier_missing_key_witness :
  Py.get Examples.fresh_prev "docs/" = None /\
  has_changed "docs/" Examples.fresh_prev More.curr_b Nxc = Raise (KeyError "docs/") /\
  has_been_changed "docs/" Examples.fresh_prev More.curr_b Nxc = Ok false.
Proof.
  pose proof (classifier_missing_key "docs/" Examples.fresh_prev More.curr_b Nxc eq_refl) as H.
  split; [reflexivity|]. split; [exact (proj1 H) | exact (proj2 (proj2 (proj2 H)))].
Defined.

(** ** Changes on one side *)

Lemma loud_false cfg : loud cfg = false -> SIMULATE cfg = false /\ VERBOSE cfg = false.
Proof. unfold loud. apply orb_false_elim. Qed.

Lemma copy_to_nxc_silent cfg p :
  loud cfg = false ->
  copy_to_nxc cfg p
  = (if is_folder p
     then [NxcCreateFolder (NEXTCLOUD_USER cfg) (NEXTCLOUD_SYNC_ROOT cfg ++ p)]
     else [DbxFilesDownloadToFile (tmp_filename p) (DROPBOX_SYNC_ROOT cfg ++ p);
           NxcUploadFile (NEXTCLOUD_USER cfg) (tmp_filename p) (NEXTCLOUD_SYNC_ROOT cfg ++ p);
           OsRemove (tmp_filename p)],
     Ok tt).
Proof.
  intros Hloud. destruct (loud_false cfg Hloud) as [Hs _].
  unfold copy_to_nxc, create_folder_nxc, download_file_dbx, upload_file_nxc, tmp_filename.
  rewrite Hloud, Hs. destruct (is_folder p); reflexivity.
Qed.

Lemma copy_to_dbx_silent cfg p :
  loud cfg = false ->
  copy_to_dbx cfg p
  = (if is_folder p
     then [DbxFilesCreateFolder (DROPBOX_SYNC_ROOT cfg ++ Py.rstrip_char p "/")]
     else [NxcDownloadFile (NEXTCLOUD_USER cfg) (NEXTCLOUD_SYNC_ROOT cfg ++ p);
           DbxFilesUpload (tmp_filename p) (DROPBOX_SYNC_ROOT cfg ++ p);
           OsRemove (tmp_filename p)],
     Ok tt).
Proof.
  intros Hloud. destruct (loud_false cfg Hloud) as [Hs _].
  unfold copy_to_dbx, create_folder_dbx, download_file_nxc, upload_file_dbx, tmp_filename.
  rewrite Hloud, Hs. destruct (is_folder p); reflexivity.
Qed.

Lemma delete_on_nxc_silent cfg p :
  loud cfg = false ->
  delete_on_nxc cfg p
  = ([NxcDeletePath (NEXTCLOUD_USER cfg) (NEXTCLOUD_SYNC_ROOT cfg ++ p)], Ok tt).
Proof.
  intros Hloud. destruct (loud_false cfg Hloud) as [Hs _].
  unfold delete_on_nxc. rewrite Hloud, Hs. reflexivity.
Qed.

Lemma delete_on_dbx_silent cfg p :
  loud cfg = false ->
  delete_on_dbx cfg p
  = ([DbxFilesDelete (DROPBOX_SYNC_ROOT cfg ++ Py.rstrip_char p "/")], Ok tt).
Proof.
  intros Hloud. destruct (loud_false cfg Hloud) as [Hs _].
  unfold delete_on_dbx. rewrite Hloud, Hs. reflexivity.
Qed.

(** X5.  A key that changed on Dropbox and not on NextCloud, in a run that
    neither simulates nor prints: if the object is on Dropbox now (it is new
    or its time moved), it is copied to NextCloud, a folder by one
    create-folder call and a file by download, upload and removal of the
    local copy; if it is gone from Dropbox, the one call made is the delete
    on NextCloud.  Dropbox is never written to. *)
Theorem dropbox_change_goes_to_nextcloud :
  forall cfg prev curr ign key value p q,
    is_root key = false ->
    (forall f, In f ign -> Py.startswith key f = false) ->
    getitem prev key = Ok p -> getitem curr key = Ok q ->
    loud cfg = false ->
    changed_of key (dbx p) (dbx q) = true ->
    changed_of key (nxc p) (nxc q) = false ->
    (existent (dbx q) = true ->
     sync_state_body cfg prev curr ign (key, value)
     = (if is_folder (path value)
        then [NxcCreateFolder (NEXTCLOUD_USER cfg) (NEXTCLOUD_SYNC_ROOT cfg ++ path value)]
        else [DbxFilesDownloadToFile (tmp_filename (path value))
                (DROPBOX_SYNC_ROOT cfg ++ path value);
              NxcUploadFile (NEXTCLOUD_USER cfg) (tmp_filename (path value))
                (NEXTCLOUD_SYNC_ROOT cfg ++ path value);
              OsRemove (tmp_filename (path value))],
        Ok tt)) /\
    (existent (dbx p) = true -> existent (dbx q) = false ->
     sync_state_body cfg prev curr ign (key, value)
     = ([NxcDeletePath (NEXTCLOUD_USER cfg) (NEXTCLOUD_SYNC_ROOT cfg ++ path value)], Ok tt)).
Proof.
  intros cfg prev curr ign key value p q Hroot Hign Hp Hq Hloud Hd Hn.
  rewrite (sync_state_body_on_entries cfg prev curr ign key value p q Hroot Hign Hp Hq Hloud).
  cbv zeta. rewrite Hd, Hn. cbn [andb negb].
  split.
  - intros Hex. rewrite <- (copy_to_nxc_silent cfg (path value) Hloud).
    unfold changed_of, created_of, deleted_of, modified_of in *. rewrite Hex in *.
    destruct (existent (dbx p)); cbn in Hd |- *; [|reflexivity].
    destruct (is_folder key); [discriminate|]. rewrite Hd. reflexivity.
  - intros Hex Hex'. rewrite <- (delete_on_nxc_silent cfg (path value) Hloud).
    unfold created_of, deleted_of. rewrite Hex, Hex'. reflexivity.
Qed.

Lemma dropbox_change_goes_to_nextcloud_witness :
  sync_state_body Examples.cfg_run
    [("a.txt", More.both "a.txt" "a.txt" "20191030101500" "20191030101501")]
    [("a.txt", More.both "a.txt" "A.txt" "20191031090000" "20191030101501")] ["tmp/"]
    ("a.txt", More.both "a.txt" "A.txt" "20191031090000" "20191030101501")
  = ([DbxFilesDownloadToFile "A.txt" "/A.txt"; NxcUploadFile "alice" "A.txt" "/A.txt";
      OsRemove "A.txt"], Ok tt).
Proof.
  refine (proj1 (dropbox_change_goes_to_nextcloud Examples.cfg_run
            [("a.txt", More.both "a.txt" "a.txt" "20191030101500" "20191030101501")]
            [("a.txt", More.both "a.txt" "A.txt" "20191031090000" "20191030101501")] ["tmp/"]
            "a.txt" (More.both "a.txt" "A.txt" "20191031090000" "20191030101501")
            (More.both "a.txt" "a.txt" "20191030101500" "20191030101501")
            (More.both "a.txt" "A.txt" "20191031090000" "20191030101501")
            eq_refl _ eq_refl eq_refl eq_refl eq_refl eq_refl) eq_refl).
  intros f [<-|[]]. reflexivity.
Defined.

(** X6.  The mirror image: a key that changed on NextCloud and not on
    Dropbox is copied to Dropbox when NextCloud has it now, and deleted on
    Dropbox (the path without its trailing separators) when NextCloud lost
    it.  NextCloud is never written to. *)
Theorem nextcloud_change_goes_to_dropbox :
  forall cfg prev curr ign key value p q,
    is_root key = false ->
    (forall f, In f ign -> Py.startswith key f = false) ->
    getitem prev key = Ok p -> getitem curr key = Ok q ->
    loud cfg = false ->
    changed_of key (dbx p) (dbx q) = false ->
    changed_of key (nxc p) (nxc q) = true ->
    (existent (nxc q) = true ->
     sync_state_body cfg prev curr ign (key, value)
     = (if is_folder (path value)
        then [DbxFilesCreateFolder (DROPBOX_SYNC_ROOT cfg ++ Py.rstrip_char (path value) "/")]
        else [NxcDownloadFile (NEXTCLOUD_USER cfg) (NEXTCLOUD_SYNC_ROOT cfg ++ path value);
              DbxFilesUpload (tmp_filename (path value)) (DROPBOX_SYNC_ROOT cfg ++ path value);
              OsRemove (tmp_filename (path value))],
        Ok tt)) /\
    (existent (nxc p) = true -> existent (nxc q) = false ->
     sync_state_body cfg prev curr ign (key, value)
     = ([DbxFilesDelete (DROPBOX_SYNC_ROOT cfg ++ Py.rstrip_char (path value) "/")], Ok tt)).
Proof.
  intros cfg prev curr ign key value p q Hroot Hign Hp Hq Hloud Hd Hn.
  rewrite (sync_state_body_on_entries cfg prev curr ign key value p q Hroot Hign Hp Hq Hloud).
  cbv zeta. rewrite Hd, Hn. cbn [andb negb].
  split.
  - intros Hex. rewrite <- (copy_to_dbx_silent cfg (path value) Hloud).
    unfold changed_of, created_of, deleted_of, modified_of in *. rewrite Hex in *.
    destruct (existent (nxc p)); cbn in Hn |- *; [|reflexivity].
    destruct (is_folder key); [discriminate|]. rewrite Hn. reflexivity.
  - intros Hex Hex'. rewrite <- (delete_on_dbx_silent cfg (path value) Hloud).
    unfold created_of, deleted_of. rewrite Hex, Hex'. reflexivity.
Qed.

Lemma nextcloud_change_goes_to_dropbox_witness :
  sync_state_body Examples.cfg_run
    [("docs/", More.both "Docs" "Docs/" "20191030120000" "20191030000000")]
    [("docs/", More.dbx_only "Docs" "Docs/" "20191101120000")] []
    ("docs/", More.dbx_only "Docs" "Docs/" "20191101120000")
  = ([DbxFilesDelete "/Docs"], Ok tt).
Proof.
  refine (proj2 (nextcloud_change_goes_to_dropbox Examples.cfg_run
            [("docs/", More.both "Docs" "Docs/" "20191030120000" "20191030000000")]
            [("docs/", More.dbx_only "Docs" "Docs/" "20191101120000")] []
            "docs/" (More.dbx_only "Docs" "Docs/" "20191101120000")
            (More.both "Docs" "Docs/" "20191030120000" "20191030000000")
            (More.dbx_only "Docs" "Docs/" "20191101120000")
            eq_refl _ eq_refl eq_refl eq_refl eq_refl eq_refl) eq_refl eq_refl).
  intros f [].
Defined.

(** ** An edit against a delete *)

(** X7.  In a run that neither simulates nor prints, when a file that was
    on both backends was edited on one (it is still there, with another
    time) and deleted on the other, the edit wins: the events of the turn
    are exactly the copy of the file to the backend that lost it (a
    download from the one, an upload to the other, the removal of the local
    copy; one create-folder call if the recorded path is a folder path),
    and none of them is a delete. *)
Theorem edit_beats_delete :
  forall cfg prev curr ign key value p q,
    is_root key = false ->
    (forall f, In f ign -> Py.startswith key f = false) ->
    getitem prev key = Ok p -> getitem curr key = Ok q ->
    loud cfg = false ->
    is_folder key = false ->
    existent (dbx p) = true -> existent (nxc p) = true ->
    (existent (dbx q) = true -> time_neq (time (dbx p)) (time (dbx q)) = true ->
     existent (nxc q) = false ->
     sync_state_body cfg prev curr ign (key, value)
     = (if is_folder (path value)
        then [NxcCreateFolder (NEXTCLOUD_USER cfg) (NEXTCLOUD_SYNC_ROOT cfg ++ path value)]
        else [DbxFilesDownloadToFile (tmp_filename (path value))
                (DROPBOX_SYNC_ROOT cfg ++ path value);
              NxcUploadFile (NEXTCLOUD_USER cfg) (tmp_filename (path value))
                (NEXTCLOUD_SYNC_ROOT cfg ++ path value);
              OsRemove (tmp_filename (path value))],
        Ok tt) /\
     Forall (fun ev => is_delete ev = false)
            (trace (sync_state_body cfg prev curr ign (key, value)))) /\
    (existent (nxc q) = true -> time_neq (time (nxc p)) (time (nxc q)) = true ->
     existent (dbx q) = false ->
     sync_state_body cfg prev curr ign (key, value)
     = (if is_folder (path value)
        then [DbxFilesCreateFolder (DROPBOX_SYNC_ROOT cfg ++ Py.rstrip_char (path value) "/")]
        else [NxcDownloadFile (NEXTCLOUD_USER cfg) (NEXTCLOUD_SYNC_ROOT cfg ++ path value);
              DbxFilesUpload (tmp_filename (path value)) (DROPBOX_SYNC_ROOT cfg ++ path value);
              OsRemove (tmp_filename (path value))],
        Ok tt) /\
     Forall (fun ev => is_delete ev = false)
            (trace (sync_state_body cfg prev curr ign (key, value)))).
Proof.
  intros cfg prev curr ign key value p q Hroot Hign Hp Hq Hloud Hk Hd Hn.
  rewrite (sync_state_body_on_entries cfg prev curr ign key value p q Hroot Hign Hp Hq Hloud).
  unfold changed_of, created_of, deleted_of, modified_of. rewrite Hk, Hd, Hn.
  split; intros H1 H2 H3; rewrite H1, H2, H3; cbn [negb Bool.eqb andb];
    rewrite ?andb_false_r; cbv zeta; cbn [negb Bool.eqb andb].
  - rewrite (copy_to_nxc_silent cfg (path value) Hloud).
    split; [reflexivity|]. destruct (is_folder (path value)); repeat constructor.
  - rewrite (copy_to_dbx_silent cfg (path value) Hloud).
    split; [reflexivity|]. destruct (is_folder (path value)); repeat constructor.
Qed.

Lemma edit_beats_delete_witness :
  sync_state_body Examples.cfg_run
    [("a.txt", More.both "a.txt" "a.txt" "20191030101500" "20191030101501")]
    [("a.txt", More.nxc_only "a.txt" "a.txt" "20191031170000")] []
    ("a.txt", More.nxc_only "a.txt" "a.txt" "20191031170000")
  = ([NxcDownloadFile "alice" "/a.txt"; DbxFilesUpload "a.txt" "/a.txt"; OsRemove "a.txt"],
     Ok tt).
Proof.
  refine (proj1 (proj2 (edit_beats_delete Examples.cfg_run
            [("a.txt", More.both "a.txt" "a.txt" "20191030101500" "20191030101501")]
            [("a.txt", More.nxc_only "a.txt" "a.txt" "20191031170000")] []
            "a.txt" (More.nxc_only "a.txt" "a.txt" "20191031170000")
            (More.both "a.txt" "a.txt" "20191030101500" "20191030101501")
            (More.nxc_only "a.txt" "a.txt" "20191031170000")
            eq_refl _ eq_refl eq_refl eq_refl eq_refl eq_refl eq_refl) eq_refl eq_refl eq_refl)).
  intros f [].
Defined.

(** ** Folder times *)

(** X8.  The time recorded for a folder never starts anything: when the two
    states agree on existence for every key and backend, and on the time
    for every key that is not a folder, [sync_state] returns normally with
    an empty trace, whatever the folder times are. *)
Theorem sync_state_ignores_folder_times :
  forall cfg prev curr ign,
    (forall key c, existent (observed prev key c) = existent (observed curr key c)) ->
    (forall key c, is_folder key = false ->
                   time (observed prev key c) = time (observed curr key c)) ->
    sync_state cfg prev curr ign = ([], Ok tt).
Proof.
  intros cfg prev curr ign Hex Htime. apply sync_state_nothing_changed.
  intros key c. unfold changed_of. rewrite (Hex key c), Bool.eqb_reflx. cbn [negb].
  destruct (is_folder key) eqn:E; [reflexivity|].
  rewrite (Htime key c E). apply time_neq_refl.
Qed.

Lemma folders_agree_on_existence key c :
  existent (observed More.folders_prev key c) = existent (observed More.folders_curr key c).
Proof.
  unfold observed, More.folders_prev, More.folders_curr. cbn [Py.get].
  destruct (String.eqb "docs/" key); [destruct c; reflexivity|].
  destruct (String.eqb "docs/a.txt" key); destruct c; reflexivity.
Qed.

Lemma folders_agree_on_file_times key c :
  is_folder key = false ->
  time (observed More.folders_prev key c) = time (observed More.folders_curr key c).
Proof.
  unfold observed, More.folders_prev, More.folders_curr. cbn [Py.get].
  destruct (String.eqb_spec "docs/" key) as [<-|_]; [discriminate|]. intros _.
  destruct (String.eqb "docs/a.txt" key); destruct c; reflexivity.
Qed.

Lemma sync_state_ignores_folder_times_witness :
  observed More.folders_prev "docs/" Dbx <> observed More.folders_curr "docs/" Dbx /\
  sync_state Examples.cfg_run More.folders_prev More.folders_curr [] = ([], Ok tt).
Proof.
  split; [discriminate|].
  exact (sync_state_ignores_folder_times Examples.cfg_run More.folders_prev More.folders_curr []
           folders_agree_on_existence folders_agree_on_file_times).
Defined.

(** ** Ignored prefixes *)

(** X9.  A key that starts with one of the ignore folders is passed over by
    both reconcilers, whatever the states say about it: the turn of the
    loop returns at once with an empty trace. *)
Theorem ignored_prefix_is_skipped :
  forall cfg prev curr ign key value f,
    In f ign -> Py.startswith key f = true ->
    sync_state_body cfg prev curr ign (key, value) = ([], Ok tt) /\
    apply_state_body cfg ign (key, value) = ([], Ok tt).
Proof.
  intros cfg prev curr ign key value f Hin Hf.
  assert (Hloop : ignore_loop key ign false = true).
  { rewrite ignore_loop_existsb. cbn [orb]. apply existsb_exists. exists f. split; assumption. }
  unfold sync_state_body, apply_state_body. rewrite Hloop.
  split.
  - destruct ((key =? "") || (key =? "/")); reflexivity.
  - destruct ((key =? "") || (key =? "/")); [reflexivity|].
    destruct (Bool.eqb (existent (dbx value)) (existent (nxc value))); reflexivity.
Qed.

Lemma ignored_prefix_is_skipped_witness :
  In "tmp/" ["old/"; "tmp/"] /\ Py.startswith "tmp/a.txt" "tmp/" = true /\
  sync_state_body Examples.cfg_run [] [] ["old/"; "tmp/"]
    ("tmp/a.txt", More.dbx_only "a.txt" "tmp/a.txt" "20191031080000") = ([], Ok tt) /\
  apply_state_body Examples.cfg_run ["old/"; "tmp/"]
    ("tmp/a.txt", More.dbx_only "a.txt" "tmp/a.txt" "20191031080000") = ([], Ok tt).
Proof.
  split; [right; left; reflexivity|]. split; [reflexivity|].
  exact (ignored_prefix_is_skipped Examples.cfg_run [] [] ["old/"; "tmp/"] "tmp/a.txt"
           (More.dbx_only "a.txt" "tmp/a.txt" "20191031080000") "tmp/"
           (or_intror (or_introl eq_refl)) eq_refl).
Defined.

(** ** The classifier after normalization, and a run that fails *)

(** X10.  After [normalize_states], both states hold every key that the
    loop of [sync_state] visits (every key of the normalized current
    state), so on such a key none of the four functions of the classifier
    raises [KeyError]: each returns its verdict on the two entries, for
    either backend. *)
Theorem classifier_total_after_normalize :
  forall prev curr prev' curr' key value c,
    normalize_states prev curr = (prev', curr') ->
    In (key, value) curr' ->
    exists p q,
      getitem prev' key = Ok p /\ getitem curr' key = Ok q /\
      has_changed key prev' curr' c = Ok (changed_of key (cloud p c) (cloud q c)) /\
      has_been_created key prev' curr' c = Ok (created_of (cloud p c) (cloud q c)) /\
      has_been_changed key prev' curr' c = Ok (modified_of key (cloud p c) (cloud q c)) /\
      has_been_deleted key prev' curr' c = Ok (deleted_of (cloud p c) (cloud q c)).
Proof.
  intros prev curr prev' curr' key value c Hn Hin.
  destruct (normalize_states_spec _ _ _ _ Hn) as (Hkeys & _ & _).
  destruct (Hkeys key value Hin) as (p & q & Hp & Hq).
  apply getitem_Ok in Hp. apply getitem_Ok in Hq.
  exists p, q. split; [exact Hp|]. split; [exact Hq|].
  exact (classifier_on_entries key prev' curr' p q c Hp Hq).
Qed.

Lemma classifier_total_after_normalize_witness :
  Py.get More.curr_b "a.txt" = None /\
  exists p q,
    getitem (fst (normalize_states More.prev_a More.curr_b)) "a.txt" = Ok p /\
    getitem (snd (normalize_states More.prev_a More.curr_b)) "a.txt" = Ok q /\
    has_changed "a.txt" (fst (normalize_states More.prev_a More.curr_b))
      (snd (normalize_states More.prev_a More.curr_b)) Nxc
    = Ok (changed_of "a.txt" (cloud p Nxc) (cloud q Nxc)) /\
    has_been_created "a.txt" (fst (normalize_states More.prev_a More.curr_b))
      (snd (normalize_states More.prev_a More.curr_b)) Nxc
    = Ok (created_of (cloud p Nxc) (cloud q Nxc)) /\
    has_been_changed "a.txt" (fst (normalize_states More.prev_a More.curr_b))
      (snd (normalize_states More.prev_a More.curr_b)) Nxc
    = Ok (modified_of "a.txt" (cloud p Nxc) (cloud q Nxc)) /\
    has_been_deleted "a.txt" (fst (normalize_states More.prev_a More.curr_b))
      (snd (normalize_states More.prev_a More.curr_b)) Nxc
    = Ok (deleted_of (cloud p Nxc) (cloud q Nxc)).
Proof.
  split; [reflexivity|].
  exact (classifier_total_after_normalize More.prev_a More.curr_b
           (fst (normalize_states More.prev_a More.curr_b))
           (snd (normalize_states More.prev_a More.curr_b))
           "a.txt" (More.neither "a.txt" "a.txt") Nxc eq_refl
           (or_intror (or_introl eq_refl))).
Defined.

Lemma for_each_aborts {A} (xs ys : list A) (y : A) (body : A -> M unit) e :
  (forall x, In x xs -> outcome (body x) = Ok tt) ->
  outcome (body y) = Raise e ->
  for_each (xs ++ y :: ys) body
  = ((flat_map (fun x => trace (body x)) xs ++ trace (body y))%list, Raise e).
Proof.
  intros Hxs Hy. induction xs as [|x xs IH]; cbn [app for_each flat_map].
  - destruct (body y) as [t r]. cbn in Hy |- *. subst r. reflexivity.
  - pose proof (Hxs x (or_introl eq_refl)) as Hx.
    rewrite IH by (intros z Hz; apply Hxs; right; exact Hz).
    destruct (body x) as [t r]. cbn in Hx |- *. subst r.
    now rewrite app_assoc.
Qed.

(** X11.  A run of [sync_state] ends at the first key whose turn raises:
    the trace is that of the keys before it, in the order of the normalized
    current state, followed by what the failing turn did, and no key after
    it is looked at. *)
Theorem sync_state_stops_at_first_exception :
  forall cfg prev curr ign prev' curr' before kv after e,
    normalize_states prev curr = (prev', curr') ->
    curr' = (before ++ kv :: after)%list ->
    (forall x, In x before -> outcome (sync_state_body cfg prev' curr' ign x) = Ok tt) ->
    outcome (sync_state_body cfg prev' curr' ign kv) = Raise e ->
    sync_state cfg prev curr ign
    = ((flat_map (fun x => trace (sync_state_body cfg prev' curr' ign x)) before
        ++ trace (sync_state_body cfg prev' curr' ign kv))%list, Raise e).
Proof.
  intros cfg prev curr ign prev' curr' before kv after e Hn Hc Hbefore Hkv.
  unfold sync_state. rewrite Hn. rewrite Hc at 1.
  apply for_each_aborts; assumption.
Qed.

Lemma sync_state_stops_at_first_exception_witness :
  sync_state Examples.cfg_run More.abort_prev More.abort_curr []
  = ([DbxFilesDownloadToFile "new.txt" "/new.txt";
      NxcUploadFile "alice" "new.txt" "/new.txt";
      OsRemove "new.txt";
      DbxFilesDownloadToFile "a.txt" "/a.txt"], Raise (NameError "_local_filepath")).
Proof.
  refine (sync_state_stops_at_first_exception Examples.cfg_run More.abort_prev More.abort_curr []
            (fst (normalize_states More.abort_prev More.abort_curr))
            (snd (normalize_states More.abort_prev More.abort_curr))
            [("new.txt", More.dbx_only "new.txt" "new.txt" "20191031080000")]
            ("a.txt", More.both "a.txt" "a.txt" "20191031090000" "20191031170000")
            [("late.txt", More.dbx_only "late.txt" "late.txt" "20191031180000")]
            (NameError "_local_filepath") eq_refl eq_refl _ eq_refl).
  intros x [<-|[]]. reflexivity.
Defined.

(** ** Verbose runs *)

Lemma actions_app t1 t2 : actions (t1 ++ t2) = (actions t1 ++ actions t2)%list.
Proof. apply filter_app. Qed.

Lemma actions_of_prints t : Forall (fun ev => is_print ev = true) t -> actions t = [].
Proof.
  induction 1 as [|ev t Hev _ IH]; [reflexivity|].
  unfold actions in *. cbn [filter]. rewrite Hev. exact IH.
Qed.

Lemma same_actions_refl {A} (m : M A) : same_actions m m.
Proof. split; reflexivity. Qed.

Lemma same_actions_bind {A B} (m1 m2 : M A) (f1 f2 : A -> M B) :
  same_actions m1 m2 -> (forall a, same_actions (f1 a) (f2 a)) ->
  same_actions (bind m1 f1) (bind m2 f2).
Proof.
  unfold same_actions, bind, trace, outcome.
  destruct m1 as [t1 r1], m2 as [t2 r2]. cbn. intros [Ht Hr] Hf. subst r2.
  destruct r1 as [a|e]; [|split; [exact Ht | reflexivity]].
  specialize (Hf a). destruct (f1 a) as [u1 s1], (f2 a) as [u2 s2]. cbn in *.
  destruct Hf as [Hu Hs]. split; [|exact Hs].
  unfold actions in *. rewrite !filter_app. congruence.
Qed.

Lemma same_actions_for_each {A} (xs : list A) (body1 body2 : A -> M unit) :
  (forall x, same_actions (body1 x) (body2 x)) ->
  same_actions (for_each xs body1) (for_each xs body2).
Proof.
  intros H. induction xs as [|x xs IH]; [apply same_actions_refl|].
  cbn [for_each]. apply same_actions_bind; [apply H | intros _; exact IH].
Qed.

(** Printing under two conditions. *)
Lemma same_actions_print (c1 c2 : bool) (s1 s2 : string) :
  same_actions (when c1 (emit (Print s1))) (when c2 (emit (Print s2))).
Proof. destruct c1, c2; split; reflexivity. Qed.

Lemma same_actions_printing {A} (m1 m2 : M A) :
  Forall (fun ev => is_print ev = true) (trace m1) ->
  Forall (fun ev => is_print ev = true) (trace m2) ->
  outcome m1 = outcome m2 -> same_actions m1 m2.
Proof.
  intros H1 H2 Hr. split; [|exact Hr]. now rewrite !actions_of_prints.
Qed.

Section Verbose.
Variable cfg : config.
Variable b : bool.

#[local] Ltac wrapper :=
  unfold with_verbose;
  apply same_actions_bind; [apply same_actions_print | intros _];
  apply same_actions_refl.

Lemma verbose_create_folder_dbx p :
  same_actions (create_folder_dbx cfg p) (create_folder_dbx (with_verbose b cfg) p).
Proof. unfold create_folder_dbx. wrapper. Qed.

Lemma verbose_create_folder_nxc p :
  same_actions (create_folder_nxc cfg p) (create_folder_nxc (with_verbose b cfg) p).
Proof. unfold create_folder_nxc. wrapper. Qed.

Lemma verbose_upload_file_dbx p f :
  same_actions (upload_file_dbx cfg p f) (upload_file_dbx (with_verbose b cfg) p f).
Proof. unfold upload_file_dbx. wrapper. Qed.

Lemma verbose_upload_file_nxc p f :
  same_actions (upload_file_nxc cfg p f) (upload_file_nxc (with_verbose b cfg) p f).
Proof. unfold upload_file_nxc. wrapper. Qed.

Lemma verbose_delete_on_dbx p :
  same_actions (delete_on_dbx cfg p) (delete_on_dbx (with_verbose b cfg) p).
Proof. unfold delete_on_dbx. wrapper. Qed.

Lemma verbose_delete_on_nxc p :
  same_actions (delete_on_nxc cfg p) (delete_on_nxc (with_verbose b cfg) p).
Proof. unfold delete_on_nxc. wrapper. Qed.

Lemma verbose_download_file_dbx p :
  same_actions (download_file_dbx cfg p) (download_file_dbx (with_verbose b cfg) p).
Proof. unfold download_file_dbx. wrapper. Qed.

Lemma verbose_download_file_nxc p :
  same_actions (download_file_nxc cfg p) (download_file_nxc (with_verbose b cfg) p).
Proof. unfold download_file_nxc. wrapper. Qed.

Lemma verbose_copy_to_dbx p : same_actions (copy_to_dbx cfg p) (copy_to_dbx (with_verbose b cfg) p).
Proof.
  unfold copy_to_dbx.
  apply same_actions_bind; [apply same_actions_print | intros _].
  destruct (is_folder p); [apply verbose_create_folder_dbx|].
  apply same_actions_bind; [apply verbose_download_file_nxc | intros f].
  apply same_actions_bind; [apply verbose_upload_file_dbx | intros _].
  apply same_actions_refl.
Qed.

Lemma verbose_copy_to_nxc p : same_actions (copy_to_nxc cfg p) (copy_to_nxc (with_verbose b cfg) p).
Proof.
  unfold copy_to_nxc.
  apply same_actions_bind; [apply same_actions_print | intros _].
  destruct (is_folder p); [apply verbose_create_folder_nxc|].
  apply same_actions_bind; [apply verbose_download_file_dbx | intros f].
  apply same_actions_bind; [apply verbose_upload_file_nxc | intros _].
  apply same_actions_refl.
Qed.

Lemma verbose_resolve_conflict p v :
  same_actions (resolve_conflict cfg p v) (resolve_conflict (with_verbose b cfg) p v).
Proof.
  rewrite !resolve_conflict_raises.
  destruct (verbose_download_file_dbx p) as [Ht _]. split; [exact Ht | reflexivity].
Qed.

Lemma verbose_apply_state_body ign kv :
  same_actions (apply_state_body cfg ign kv) (apply_state_body (with_verbose b cfg) ign kv).
Proof.
  destruct kv as [key value]. unfold apply_state_body.
  repeat match goal with
         | |- same_actions (if ?c then _ else _) _ => destruct c
         end;
    first [apply same_actions_refl | apply verbose_copy_to_dbx | apply verbose_copy_to_nxc].
Qed.

Lemma verbose_sync_state_body prev curr ign kv :
  same_actions (sync_state_body cfg prev curr ign kv) (sync_state_body (with_verbose b cfg) prev curr ign kv).
Proof.
  destruct kv as [key value]. unfold sync_state_body.
  match goal with |- same_actions (if ?c then _ else _) _ => destruct c end;
    [apply same_actions_refl|].
  do 8 (apply same_actions_bind; [apply same_actions_refl | intros ?]).
  apply same_actions_bind.
  - apply same_actions_printing.
    + destruct (loud cfg && _); repeat constructor.
    + destruct (loud (with_verbose b cfg) && _); repeat constructor.
    + destruct (loud cfg && _), (loud (with_verbose b cfg) && _); reflexivity.
  - intros _.
    repeat match goal with
           | |- same_actions (if ?c then _ else _) _ => destruct c
           end;
      first [ apply same_actions_refl | apply verbose_copy_to_dbx | apply verbose_copy_to_nxc
            | apply verbose_delete_on_dbx | apply verbose_delete_on_nxc
            | apply verbose_resolve_conflict ].
Qed.
End Verbose.

(** X12.  [VERBOSE] changes what is printed and nothing else: with the flag
    set either way, [sync_state] and [apply_state] make the same client calls
    and local removals in the same order and end the same way. *)
Theorem verbose_changes_only_printing :
  forall cfg b prev curr st ign,
    same_actions (sync_state cfg prev curr ign) (sync_state (with_verbose b cfg) prev curr ign) /\
    same_actions (apply_state cfg st ign) (apply_state (with_verbose b cfg) st ign).
Proof.
  intros cfg b prev curr st ign. split.
  - unfold sync_state. destruct (normalize_states prev curr) as [prev' curr'].
    apply same_actions_for_each. intros kv. apply verbose_sync_state_body.
  - unfold apply_state. apply same_actions_for_each. intros kv.
    apply verbose_apply_state_body.
Qed.

(** ** What every snapshot satisfies *)

Lemma setdefault_empty_get st key n p k :
  Py.get (setdefault_empty st key n p) k
  = match Py.get st k with
    | Some e => Some e
    | None => if String.eqb key k then Some (get_empty_state_entry n p) else None
    end.
Proof.
  unfold setdefault_empty, Py.contains.
  destruct (Py.get st key) eqn:E.
  - destruct (Py.get st k) eqn:Ek; [reflexivity|].
    destruct (String.eqb_spec key k) as [->|_]; [congruence | reflexivity].
  - destruct (String.eqb_spec key k) as [->|Hne].
    + rewrite get_set_same, E. reflexivity.
    + rewrite get_set_other by exact Hne. now destruct (Py.get st k).
Qed.

(** [_state[key][c] = s] after [if not key in _state: ...], read at [k]. *)
Lemma upsert_get st key n p c s k :
  Py.get (setitem_cloud (setdefault_empty st key n p) key c s) k
  = if String.eqb key k
    then Some (set_cloud (match Py.get st key with
                          | Some e => e
                          | None => get_empty_state_entry n p
                          end) c s)
    else Py.get st k.
Proof.
  unfold setitem_cloud. rewrite (setdefault_empty_get st key n p key), String.eqb_refl.
  destruct (String.eqb_spec key k) as [->|Hne].
  - destruct (Py.get st k); apply get_set_same.
  - assert (Hk : Py.get (setdefault_empty st key n p) k = Py.get st k).
    { rewrite setdefault_empty_get. destruct (Py.get st k); [reflexivity|].
      apply String.eqb_neq in Hne. now rewrite Hne. }
    destruct (Py.get st key); rewrite get_set_other by exact Hne; exact Hk.
Qed.

Lemma upsert_entries_all (P : state_entry -> Prop) st key n p c s :
  entries_all P st ->
  (forall e, P e -> P (set_cloud e c s)) ->
  P (set_cloud (get_empty_state_entry n p) c s) ->
  entries_all P (setitem_cloud (setdefault_empty st key n p) key c s).
Proof.
  intros Hall Hold Hnew k e. rewrite upsert_get.
  destruct (String.eqb key k); [|apply Hall].
  intros H. inversion H; subst; clear H.
  destruct (Py.get st key) as [e0|] eqn:E; [apply Hold, (Hall key), E | exact Hnew].
Qed.

Section SnapshotInvariant.
Variable datetime : Type.
Variable strftime : datetime -> string -> string.
Variable strptime : string -> string -> datetime.
Variable unquote : string -> string.
Variable cfg : config.

(** An invariant of entries that survives each side being marked as
    existing with a time. *)
Variable P : state_entry -> Prop.
Variable c_dbx : forall e t, P e -> P (set_cloud e Dbx {| existent := true; time := Some t |}).
Variable c_dbx0 :
  forall n p t, P (set_cloud (get_empty_state_entry n p) Dbx {| existent := true; time := Some t |}).

Lemma fill_state_dbx_entries_all _dbx st :
  entries_all P st -> entries_all P (fill_state_dbx strftime cfg _dbx st).
Proof.
  unfold fill_state_dbx. generalize (cursor (files_list_folder _dbx)). intros pending.
  revert st. induction pending as [|page pending IH]; intros st H; [exact H|].
  cbn [fill_state_dbx_while]. apply IH. clear IH. revert st H.
  induction page as [|en page IH]; intros st H; [exact H|].
  cbn [fold_left]. apply IH.
  destruct en as [n pl pd|n pl pd cm|n pl pd]; cbn [fill_entry_dbx]; [| |exact H];
    apply upsert_entries_all; auto.
Qed.

Variable c_nxc : forall e t, P e -> P (set_cloud e Nxc {| existent := true; time := Some t |}).
Variable c_nxc0 :
  forall n p t, P (set_cloud (get_empty_state_entry n p) Nxc {| existent := true; time := Some t |}).

Lemma fill_state_nxc_entries_all _nxc st :
  entries_all P st -> entries_all P (fill_state_nxc strftime strptime unquote cfg _nxc st).
Proof.
  unfold fill_state_nxc. destruct (is_ok _nxc); [|trivial].
  generalize (data _nxc). intros items. revert st.
  induction items as [|it items IH]; intros st H; [exact H|].
  cbn [fold_left]. apply IH. unfold fill_entry_nxc.
  match goal with |- context [if ?b then _ else _] => destruct b end; [exact H|].
  apply upsert_entries_all; auto.
Qed.
End SnapshotInvariant.

(** X13.  Every entry of a state that [get_state] returns exists on at
    least one backend, and on each backend it has a time exactly when it
    exists there: no entry is absent on both sides, none exists without a
    time, none keeps a time without existing. *)
Theorem get_state_entries_are_well_formed :
  forall (datetime : Type) (strftime : datetime -> string -> string)
         (strptime : string -> string -> datetime) (unquote : string -> string)
         cfg _dbx _nxc,
    entries_all snapshot_entry (get_state strftime strptime unquote cfg _dbx _nxc).
Proof.
  intros datetime strftime strptime unquote cfg _dbx _nxc. unfold get_state.
  apply fill_state_nxc_entries_all.
  - intros e t (H1 & H2 & H3). repeat split; cbn; [apply orb_true_r | exact H2].
  - intros n p t. repeat split.
  - apply fill_state_dbx_entries_all.
    + intros e t (H1 & H2 & H3). repeat split; cbn; exact H3.
    + intros n p t. repeat split.
    + intros key e H. discriminate H.
Qed.

(** X14.  A NextCloud listing that is not ok is not an error: [get_state]
    returns what the Dropbox pass built, and every entry of it exists on
    Dropbox and is absent, without a time, on NextCloud. *)
Theorem get_state_with_failed_nextcloud_listing :
  forall (datetime : Type) (strftime : datetime -> string -> string)
         (strptime : string -> string -> datetime) (unquote : string -> string)
         cfg _dbx _nxc,
    is_ok _nxc = false ->
    get_state strftime strptime unquote cfg _dbx _nxc = fill_state_dbx strftime cfg _dbx [] /\
    entries_all
      (fun e => existent (dbx e) = true /\ nxc e = {| existent := false; time := None |})
      (get_state strftime strptime unquote cfg _dbx _nxc).
Proof.
  intros datetime strftime strptime unquote cfg _dbx _nxc Hok.
  assert (E : get_state strftime strptime unquote cfg _dbx _nxc
              = fill_state_dbx strftime cfg _dbx []).
  { unfold get_state, fill_state_nxc. now rewrite Hok. }
  split; [exact E|]. rewrite E.
  apply fill_state_dbx_entries_all.
  - intros e t [_ H]. split; [reflexivity | exact H].
  - intros n p t. split; reflexivity.
  - intros key e H. discriminate H.
Qed.

Lemma get_state_with_failed_nextcloud_listing_witness :
  is_ok More.nxc_failed = false /\
  get_state Examples.strftime_text Examples.strptime_text Examples.unquote_plain
    Examples.cfg_run Examples.two_pages More.nxc_failed
  = [("docs/", More.dbx_only "Docs" "Docs/" "20191101120000");
     ("docs/report.txt", More.dbx_only "Report.TXT" "Docs/Report.TXT" "20191031090000")].
Proof.
  split; [reflexivity|].
  exact (proj1 (get_state_with_failed_nextcloud_listing string Examples.strftime_text
                  Examples.strptime_text Examples.unquote_plain Examples.cfg_run
                  Examples.two_pages More.nxc_failed eq_refl)).
Defined.

(** ** Two snapshots of an unchanged namespace *)

Lemma is_folder_append_slash s : is_folder (s ++ "/") = true.
Proof.
  unfold is_folder. induction s as [|a s IH]; [reflexivity|].
  cbn [append Py.endswith_char]. destruct (s ++ "/") eqn:E; [|exact IH].
  destruct s; discriminate E.
Qed.

Lemma same_but_folder_time_refl key e : same_but_folder_time key e e.
Proof. repeat split. Qed.

Lemma states_alike_get s1 s2 k :
  states_alike s1 s2 ->
  match Py.get s1 k, Py.get s2 k with
  | Some e1, Some e2 => same_but_folder_time k e1 e2
  | None, None => True
  | _, _ => False
  end.
Proof.
  induction 1 as [|[k1 e1] [k2 e2] s1 s2 [Hk He] _ IH]; [exact I|].
  cbn [fst snd] in Hk, He. subst k2. cbn [Py.get].
  destruct (String.eqb_spec k1 k) as [->|_]; [exact He | exact IH].
Qed.

Lemma states_alike_set s1 s2 k v1 v2 :
  states_alike s1 s2 -> same_but_folder_time k v1 v2 ->
  states_alike (Py.set s1 k v1) (Py.set s2 k v2).
Proof.
  intros H Hv. induction H as [|[k1 e1] [k2 e2] s1 s2 [Hk He] Hrest IH].
  - constructor; [split; [reflexivity | exact Hv] | constructor].
  - cbn [fst snd] in Hk, He. subst k2. cbn [Py.set].
    destruct (String.eqb_spec k1 k) as [->|_].
    + constructor; [split; [reflexivity | exact Hv] | exact Hrest].
    + constructor; [split; [reflexivity | exact He] | exact IH].
Qed.

Lemma states_alike_upsert s1 s2 key n p c cs1 cs2 :
  states_alike s1 s2 ->
  (forall e1 e2, same_but_folder_time key e1 e2 ->
                 same_but_folder_time key (set_cloud e1 c cs1) (set_cloud e2 c cs2)) ->
  states_alike (setitem_cloud (setdefault_empty s1 key n p) key c cs1)
               (setitem_cloud (setdefault_empty s2 key n p) key c cs2).
Proof.
  intros H Hset.
  assert (H' : states_alike (setdefault_empty s1 key n p) (setdefault_empty s2 key n p)).
  { unfold setdefault_empty, Py.contains.
    pose proof (states_alike_get s1 s2 key H) as Hg.
    destruct (Py.get s1 key), (Py.get s2 key); try contradiction; [exact H|].
    apply states_alike_set; [exact H | apply same_but_folder_time_refl]. }
  unfold setitem_cloud.
  pose proof (states_alike_get _ _ key H') as Hg.
  destruct (Py.get (setdefault_empty s1 key n p) key),
    (Py.get (setdefault_empty s2 key n p) key); try contradiction; [|exact H'].
  apply states_alike_set; [exact H' | apply Hset, Hg].
Qed.

Lemma states_alike_unchanged s1 s2 key c :
  states_alike s1 s2 -> changed_of key (observed s1 key c) (observed s2 key c) = false.
Proof.
  intros H. pose proof (states_alike_get s1 s2 key H) as Hg. unfold observed.
  destruct (Py.get s1 key) as [e1|], (Py.get s2 key) as [e2|]; try contradiction;
    [|apply changed_of_same].
  destruct Hg as (_ & _ & Hn & Hex & Ht).
  destruct c; cbn [cloud]; [|rewrite Hn; apply changed_of_same].
  unfold changed_of. rewrite Hex, Bool.eqb_reflx. cbn [negb].
  destruct (is_folder key); [reflexivity|]. rewrite (Ht eq_refl). apply time_neq_refl.
Qed.

Section TwoSnapshots.
Variable datetime : Type.
Variable strftime : datetime -> string -> string.
Variable strptime : string -> string -> datetime.
Variable unquote : string -> string.
Variables cfg1 cfg2 : config.
Hypothesis same_dropbox_root : DROPBOX_SYNC_ROOT cfg1 = DROPBOX_SYNC_ROOT cfg2.
Hypothesis same_user : NEXTCLOUD_USER cfg1 = NEXTCLOUD_USER cfg2.
Hypothesis same_nextcloud_root : NEXTCLOUD_SYNC_ROOT cfg1 = NEXTCLOUD_SYNC_ROOT cfg2.

Lemma fill_state_dbx_alike _dbx s1 s2 :
  states_alike s1 s2 ->
  states_alike (fill_state_dbx strftime cfg1 _dbx s1) (fill_state_dbx strftime cfg2 _dbx s2).
Proof.
  unfold fill_state_dbx. generalize (cursor (files_list_folder _dbx)). intros pending.
  revert s1 s2. induction pending as [|page pending IH]; intros s1 s2 H; [exact H|].
  cbn [fill_state_dbx_while]. apply IH. clear IH. revert s1 s2 H.
  induction page as [|en page IH]; intros s1 s2 H; [exact H|].
  cbn [fold_left]. apply IH.
  destruct en as [n pl pd|n pl pd cm|n pl pd]; cbn [fill_entry_dbx]; [| |exact H];
    rewrite <- same_dropbox_root; apply states_alike_upsert; try exact H.
  - intros e1 e2 (A & B & C & D & _). repeat split; try assumption.
    rewrite is_folder_append_slash. discriminate.
  - intros e1 e2 (A & B & C & D & _). repeat split; assumption.
Qed.

Lemma fill_state_nxc_alike _nxc s1 s2 :
  states_alike s1 s2 ->
  states_alike (fill_state_nxc strftime strptime unquote cfg1 _nxc s1)
               (fill_state_nxc strftime strptime unquote cfg2 _nxc s2).
Proof.
  unfold fill_state_nxc. destruct (is_ok _nxc); [|trivial].
  generalize (data _nxc). intros items. revert s1 s2.
  induction items as [|it items IH]; intros s1 s2 H; [exact H|].
  cbn [fold_left]. apply IH. unfold fill_entry_nxc, NEXTCLOUD_SYNC_ROOT_TEXT.
  rewrite <- same_user, <- same_nextcloud_root.
  match goal with |- context [if ?b then _ else _] => destruct b end; [exact H|].
  apply states_alike_upsert; [exact H|].
  intros e1 e2 (A & B & C & D & E). repeat split; assumption.
Qed.

Lemma get_state_alike _dbx _nxc :
  states_alike (get_state strftime strptime unquote cfg1 _dbx _nxc)
               (get_state strftime strptime unquote cfg2 _dbx _nxc).
Proof.
  unfold get_state. apply fill_state_nxc_alike, fill_state_dbx_alike. constructor.
Qed.
End TwoSnapshots.

(** X15.  Two snapshots of the same listings, taken by two runs with the
    same roots and user but at different times and in any modes, reconcile
    to nothing: [sync_state] from the one to the other returns with an
    empty trace, although the Dropbox folders carry another time in each. *)
Theorem snapshots_of_one_listing_reconcile_to_nothing :
  forall (datetime : Type) (strftime : datetime -> string -> string)
         (strptime : string -> string -> datetime) (unquote : string -> string)
         cfg1 cfg2 _dbx _nxc ign,
    DROPBOX_SYNC_ROOT cfg1 = DROPBOX_SYNC_ROOT cfg2 ->
    NEXTCLOUD_USER cfg1 = NEXTCLOUD_USER cfg2 ->
    NEXTCLOUD_SYNC_ROOT cfg1 = NEXTCLOUD_SYNC_ROOT cfg2 ->
    sync_state cfg2 (get_state strftime strptime unquote cfg1 _dbx _nxc)
               (get_state strftime strptime unquote cfg2 _dbx _nxc) ign
    = ([], Ok tt).
Proof.
  intros datetime strftime strptime unquote cfg1 cfg2 _dbx _nxc ign Hd Hu Hn.
  apply sync_state_nothing_changed. intros key c.
  apply states_alike_unchanged.
  apply (get_state_alike datetime strftime strptime unquote cfg1 cfg2 Hd Hu Hn).
Qed.

Lemma snapshots_of_one_listing_reconcile_to_nothing_witness :
  get_state Examples.strftime_text Examples.strptime_text Examples.unquote_plain
    (config_of "20191030120000" More.args_dry) Examples.two_pages Examples.nxc_listing
  <> get_state Examples.strftime_text Examples.strptime_text Examples.unquote_plain
       (config_of "20191101120000" More.args_sync) Examples.two_pages Examples.nxc_listing /\
  sync_state (config_of "20191101120000" More.args_sync)
    (get_state Examples.strftime_text Examples.strptime_text Examples.unquote_plain
       (config_of "20191030120000" More.args_dry) Examples.two_pages Examples.nxc_listing)
    (get_state Examples.strftime_text Examples.strptime_text Examples.unquote_plain
       (config_of "20191101120000" More.args_sync) Examples.two_pages Examples.nxc_listing) []
  = ([], Ok tt).
Proof.
  split; [discriminate|].
  exact (snapshots_of_one_listing_reconcile_to_nothing string Examples.strftime_text
           Examples.strptime_text Examples.unquote_plain
           (config_of "20191030120000" More.args_dry)
           (config_of "20191101120000" More.args_sync)
           Examples.two_pages Examples.nxc_listing [] eq_refl eq_refl eq_refl).
Defined.

(** ** The local file of a download *)

Lemma rfind_from_spec s c i acc :
  (has_char s c = false /\ Py.rfind_from s c i acc = acc) \/
  (exists n : nat,
      Py.rfind_from s c i acc = (i + Z.of_nat n)%Z /\
      has_char (Py.slice_from (S n) s) c = false).
Proof.
  revert i acc. induction s as [|a s IH]; intros i acc; [left; split; reflexivity|].
  cbn [Py.rfind_from has_char].
  destruct (IH (i + 1)%Z (if Ascii.eqb a c then i else acc)) as [[Hno Hr]|(n & Hr & Hno)].
  - destruct (Ascii.eqb a c) eqn:E.
    + right. exists 0. split; [rewrite Hr; lia | exact Hno].
    + left. split; [exact Hno | exact Hr].
  - right. exists (S n). split; [rewrite Hr; lia | exact Hno].
Qed.

Lemma rfind_from_absent s c i acc :
  has_char s c = false -> Py.rfind_from s c i acc = acc.
Proof.
  revert i acc. induction s as [|a s IH]; intros i acc H; [reflexivity|].
  cbn [has_char] in H. apply orb_false_elim in H. destruct H as [Ha Hs].
  cbn [Py.rfind_from]. rewrite Ha. apply IH, Hs.
Qed.

Lemma slice_from_length s : Py.slice_from (String.length s) s = "".
Proof. induction s as [|a s IH]; [reflexivity | exact IH]. Qed.

Lemma rfind_from_endswith s c i acc :
  Py.endswith_char s c = true ->
  Py.rfind_from s c i acc = (i + Z.of_nat (String.length s) - 1)%Z.
Proof.
  revert i acc. induction s as [|a s IH]; intros i acc H; [discriminate|].
  cbn [Py.endswith_char] in H. cbn [Py.rfind_from String.length].
  destruct s as [|b s].
  - rewrite H. cbn. lia.
  - rewrite (IH _ _ H). cbn [String.length]. lia.
Qed.

(** X16.  The local file that [download_file_dbx] and [download_file_nxc]
    name for a path is the part of the path after its last separator: the
    name never contains a separator, it is the whole path when the path has
    none, and it is empty when the path ends in one (a folder path). *)
Theorem download_filename_is_basename :
  forall cfg p,
    outcome (download_file_dbx cfg p) = Ok (tmp_filename p) /\
    outcome (download_file_nxc cfg p) = Ok (tmp_filename p) /\
    has_char (tmp_filename p) "/" = false /\
    (has_char p "/" = false -> tmp_filename p = p) /\
    (is_folder p = true -> tmp_filename p = "").
Proof.
  intros cfg p.
  split; [unfold download_file_dbx; destruct (loud cfg); reflexivity|].
  split; [unfold download_file_nxc; destruct (loud cfg); reflexivity|].
  unfold tmp_filename, Py.rfind.
  split; [|split].
  - destruct (rfind_from_spec p "/" 0%Z (-1)%Z) as [[Hno ->]|(n & -> & Hno)].
    + exact Hno.
    + replace (Z.to_nat (0 + Z.of_nat n + 1)) with (S n) by lia. exact Hno.
  - intros Hno. rewrite (rfind_from_absent p "/" 0%Z (-1)%Z Hno). reflexivity.
  - intros Hf. unfold is_folder in Hf. rewrite (rfind_from_endswith p "/" 0%Z (-1)%Z Hf).
    replace (Z.to_nat (0 + Z.of_nat (String.length p) - 1 + 1)) with (String.length p) by lia.
    apply slice_from_length.
Qed.

(** ** Runs of [main] *)

Section MainRuns.
Variable datetime : Type.
Variable strftime : datetime -> string -> string.
Variable strptime : string -> string -> datetime.
Variable unquote : string -> string.

Lemma quiet_sync_state cfg prev curr ign :
  SIMULATE cfg = true -> quiet (sync_state cfg prev curr ign).
Proof.
  intros dry. unfold sync_state. destruct (normalize_states prev curr) as [prev' curr'].
  apply quiet_for_each. intros kv. apply quiet_sync_state_body, dry.
Qed.

Lemma quiet_apply_state cfg st ign :
  SIMULATE cfg = true -> quiet (apply_state cfg st ign).
Proof.
  intros dry. unfold apply_state. apply quiet_for_each. intros kv.
  apply quiet_apply_state_body, dry.
Qed.

End MainRuns.

(** X17.  After a run of [main] in reconcile mode that ended normally, a
    second reconcile run with the same roots and user, for which the
    backends list what they listed at the end of the first, does nothing:
    it makes no call, prints nothing and ends normally.  This holds for any
    two run times and whether either run simulates or is verbose, so what a
    dry run reported is not done by the run that follows it. *)
Theorem main_second_run_does_nothing :
  forall (datetime : Type) (strftime : datetime -> string -> string)
         (strptime : string -> string -> datetime) (unquote : string -> string)
         now1 now2 args1 args2 world1 world2 state_json,
    arg_create_state args1 = false -> arg_apply_state args1 = false ->
    arg_create_state args2 = false -> arg_apply_state args2 = false ->
    arg_dropbox_root args1 = arg_dropbox_root args2 ->
    arg_nextcloud_user args1 = arg_nextcloud_user args2 ->
    arg_nextcloud_root args1 = arg_nextcloud_root args2 ->
    run_exit (main strftime strptime unquote now1 args1 world1 state_json) = Exit0 ->
    world2 0 = world1 1 ->
    run_events
      (main strftime strptime unquote now2 args2 world2
         (run_state_json (main strftime strptime unquote now1 args1 world1 state_json))) = [] /\
    run_exit
      (main strftime strptime unquote now2 args2 world2
         (run_state_json (main strftime strptime unquote now1 args1 world1 state_json))) = Exit0.
Proof.
  intros datetime strftime strptime unquote now1 now2 args1 args2 world1 world2 state_json
    Hc1 Ha1 Hc2 Ha2 Hd Hu Hn Hexit Hworld.
  unfold main in Hexit |- *. rewrite Hc1, Ha1 in *. rewrite Hc2, Ha2. cbn [orb andb] in *.
  destruct state_json as [prev|]; [|discriminate Hexit].
  destruct (sync_state (config_of now1 args1) prev _ _) as [t [[]|e]]; [|discriminate Hexit].
  cbn [run_state_json]. rewrite Hworld.
  assert (E : sync_state (config_of now2 args2)
                (get_state strftime strptime unquote (config_of now1 args1)
                   (fst (world1 1)) (snd (world1 1)))
                (get_state strftime strptime unquote (config_of now2 args2)
                   (fst (world1 1)) (snd (world1 1)))
                match arg_ignore_folder args2 with Some l => l | None => [] end
              = ([], Ok tt)).
  { apply sync_state_nothing_changed. intros key c. apply states_alike_unchanged.
    apply get_state_alike; assumption. }
  rewrite E. split; reflexivity.
Qed.

Lemma main_second_run_does_nothing_witness :
  run_events (main Examples.strftime_text Examples.strptime_text Examples.unquote_plain
                "20191030120000" More.args_dry More.steady_world (Some More.before_edit))
  <> [] /\
  run_events
    (main Examples.strftime_text Examples.strptime_text Examples.unquote_plain
       "20191101120000" More.args_sync More.steady_world
       (run_state_json
          (main Examples.strftime_text Examples.strptime_text Examples.unquote_plain
             "20191030120000" More.args_dry More.steady_world (Some More.before_edit))))
  = [].
Proof.
  split; [discriminate|].
  exact (proj1 (main_second_run_does_nothing string Examples.strftime_text
                  Examples.strptime_text Examples.unquote_plain
                  "20191030120000" "20191101120000" More.args_dry More.args_sync
                  More.steady_world More.steady_world (Some More.before_edit)
                  eq_refl eq_refl eq_refl eq_refl eq_refl eq_refl eq_refl eq_refl eq_refl)).
Defined.

(** X18.  With [--simulate], [main] makes no call that changes a backend in
    any of its modes; and in reconcile mode a dry run that ends normally
    still overwrites [state.json] with the snapshot it takes at its end. *)
Theorem main_dry_run :
  forall (datetime : Type) (strftime : datetime -> string -> string)
         (strptime : string -> string -> datetime) (unquote : string -> string)
         now args world state_json,
    arg_simulate args = true ->
    Forall (fun ev => mutates_backend ev = false)
           (run_events (main strftime strptime unquote now args world state_json)) /\
    (arg_create_state args = false -> arg_apply_state args = false ->
     run_exit (main strftime strptime unquote now args world state_json) = Exit0 ->
     run_state_json (main strftime strptime unquote now args world state_json)
     = Some (get_state strftime strptime unquote (config_of now args)
               (fst (world 1)) (snd (world 1)))).
Proof.
  intros datetime strftime strptime unquote now args world state_json Hsim.
  assert (Hdry : SIMULATE (config_of now args) = true) by exact Hsim.
  split.
  - unfold main.
    assert (Hw : Forall (fun ev => mutates_backend ev = false)
                   (if arg_create_state args && arg_simulate args
                    then [Print "Warning: Creation of state file cannot be simulated. This might do nothing."]
                    else [])).
    { destruct (arg_create_state args && arg_simulate args); repeat constructor. }
    destruct (arg_create_state args || arg_apply_state args).
    + destruct (arg_apply_state args); [|exact Hw].
      match goal with |- context [match ?o with Some _ => _ | None => _ end] => destruct o as [st|] end;
        [|exact Hw].
      pose proof (quiet_apply_state (config_of now args) st
                    match arg_ignore_folder args with Some l => l | None => [] end Hdry) as Hq.
      unfold quiet, trace in Hq.
      destruct (apply_state _ _ _) as [t [[]|e]]; cbn [run_events];
        apply Forall_app; split; assumption.
    + destruct state_json as [prev|]; [|exact Hw].
      pose proof (quiet_sync_state (config_of now args) prev
                    (get_state strftime strptime unquote (config_of now args)
                       (fst (world 0)) (snd (world 0)))
                    match arg_ignore_folder args with Some l => l | None => [] end Hdry) as Hq.
      unfold quiet, trace in Hq.
      destruct (sync_state _ _ _ _) as [t [[]|e]]; cbn [run_events];
        apply Forall_app; split; assumption.
  - intros Hc Ha. unfold main. rewrite Hc, Ha. cbn [orb andb].
    destruct state_json as [prev|]; [|discriminate].
    destruct (sync_state _ _ _ _) as [t [[]|e]]; [reflexivity | discriminate].
Qed.

Lemma main_dry_run_witness :
  arg_simulate More.args_dry = true /\
  Forall (fun ev => mutates_backend ev = false)
    (run_events (main Examples.strftime_text Examples.strptime_text Examples.unquote_plain
                   "20191030120000" More.args_dry More.steady_world
                   (Some More.before_edit))) /\
  run_state_json (main Examples.strftime_text Examples.strptime_text Examples.unquote_plain
                    "20191030120000" More.args_dry More.steady_world
                    (Some More.before_edit))
  = Some [("docs/", More.both "Docs" "Docs/" "20191030120000" "20191031170000");
          ("docs/report.txt",
           More.both "Report.TXT" "Docs/Report.TXT" "20191031090000" "20191031170500")].
Proof.
  pose proof (main_dry_run string Examples.strftime_text Examples.strptime_text
                Examples.unquote_plain "20191030120000" More.args_dry More.steady_world
                (Some More.before_edit) eq_refl) as H.
  split; [reflexivity|]. split; [exact (proj1 H) | exact (proj2 H eq_refl eq_refl eq_refl)].
Defined.



(** ** Calls that are never made *)

Section Never.
Variable bad : event -> bool.

Lemma never_ret {A} (a : A) : never bad (ret a).
Proof. constructor. Qed.

Lemma never_lift {A} (r : result A) : never bad (lift r).
Proof. constructor. Qed.

Lemma never_emit ev : bad ev = false -> never bad (emit ev).
Proof. intros H. constructor; [exact H | constructor]. Qed.

Lemma never_bind {A B} (m : M A) (f : A -> M B) :
  never bad m -> (forall a, never bad (f a)) -> never bad (bind m f).
Proof.
  unfold never, bind, trace. intros Hm Hf.
  destruct m as [t [a|e]]; cbn in *; [|exact Hm].
  specialize (Hf a). destruct (f a) as [t' r]; cbn in *.
  apply Forall_app; split; assumption.
Qed.

Lemma never_when c body : never bad body -> never bad (when c body).
Proof. destruct c; [trivial | intros _; apply never_ret]. Qed.

Lemma never_for_each {A} (xs : list A) (body : A -> M unit) :
  (forall x, never bad (body x)) -> never bad (for_each xs body).
Proof.
  intros H. induction xs as [|x xs IH]; [apply never_ret|].
  cbn [for_each]. apply never_bind; [apply H | intros _; exact IH].
Qed.
End Never.

#[local] Ltac never_step :=
  first
    [ apply never_ret | apply never_lift
    | apply never_emit; reflexivity
    | apply never_when
    | apply never_bind; [|intros ?] ].

Lemma never_move_or_delete_copy_to_dbx cfg p :
  never (fun ev => is_move ev || is_delete ev) (copy_to_dbx cfg p).
Proof.
  unfold copy_to_dbx, create_folder_dbx, download_file_nxc, upload_file_dbx.
  apply never_bind; [repeat never_step | intros _].
  destruct (is_folder p); repeat never_step.
Qed.

Lemma never_move_or_delete_copy_to_nxc cfg p :
  never (fun ev => is_move ev || is_delete ev) (copy_to_nxc cfg p).
Proof.
  unfold copy_to_nxc, create_folder_nxc, download_file_dbx, upload_file_nxc.
  apply never_bind; [repeat never_step | intros _].
  destruct (is_folder p); repeat never_step.
Qed.

Lemma never_move_weaken {A} (m : M A) :
  never (fun ev => is_move ev || is_delete ev) m -> never is_move m.
Proof.
  unfold never. apply Forall_impl. intros ev H. now apply orb_false_elim in H.
Qed.

Lemma never_move_resolve_conflict cfg p v : never is_move (resolve_conflict cfg p v).
Proof.
  rewrite resolve_conflict_raises.
  assert (H : never is_move (download_file_dbx cfg p))
    by (unfold download_file_dbx; repeat never_step).
  exact H.
Qed.

Lemma never_move_delete_on_dbx cfg p : never is_move (delete_on_dbx cfg p).
Proof. unfold delete_on_dbx. repeat never_step. Qed.

Lemma never_move_delete_on_nxc cfg p : never is_move (delete_on_nxc cfg p).
Proof. unfold delete_on_nxc. repeat never_step. Qed.

Lemma never_move_sync_state_body cfg prev curr ign kv :
  never is_move (sync_state_body cfg prev curr ign kv).
Proof.
  destruct kv as [key value]. unfold sync_state_body.
  match goal with |- never _ (if ?c then _ else _) => destruct c end; [apply never_ret|].
  do 8 (apply never_bind; [apply never_lift | intros ?]).
  apply never_bind; [repeat never_step | intros _].
  repeat match goal with
         | |- never _ (if ?c then _ else _) => destruct c
         end;
    first [ apply never_ret
          | apply never_move_weaken, never_move_or_delete_copy_to_dbx
          | apply never_move_weaken, never_move_or_delete_copy_to_nxc
          | apply never_move_resolve_conflict
          | apply never_move_delete_on_dbx
          | apply never_move_delete_on_nxc ].
Qed.

(** X20.  No run of [sync_state] ever renames anything: the move of a
    conflicting NextCloud file comes after the digest step, which does not
    return.  And [apply_state] neither renames nor deletes: all it ever
    does to a backend is create folders and upload files. *)
Theorem reconcilers_never_rename :
  forall cfg prev curr st ign,
    never is_move (sync_state cfg prev curr ign) /\
    never (fun ev => is_move ev || is_delete ev) (apply_state cfg st ign).
Proof.
  intros cfg prev curr st ign. split.
  - unfold sync_state. destruct (normalize_states prev curr) as [prev' curr'].
    apply never_for_each. intros kv. apply never_move_sync_state_body.
  - unfold apply_state. apply never_for_each. intros [key value].
    unfold apply_state_body.
    repeat match goal with
           | |- never _ (if ?c then _ else _) => destruct c
           end;
      first [ apply never_ret
            | apply never_move_or_delete_copy_to_dbx
            | apply never_move_or_delete_copy_to_nxc ].
Qed.
